(** * vcf-triage-cli: the triage filter and the IGV batch generator

    A shallow embedding of [src/vcf_triage.py] and [src/igv_batch.py],
    followed by the properties stated about them.

    Conventions of the embedding:
    - a Python [str] is a [string] whose characters are code points below 256;
    - a Python [int] is a [Z]; a Python [float] is a binary64 [spec_float];
    - the dictionaries that are only read by key ([INFO], [FORMAT], a CSV row)
      are [gmap string string]; the consequence counter, whose items are
      iterated in insertion order, is an association list;
    - a call that can raise returns a [result]; a [try]/[except Exception]
      turns every [Raise] into the handler's value. *)

From Stdlib Require Import ZArith NArith String Ascii List Bool Lia.
From Stdlib Require Import SpecFloat DecimalString Sorting.Permutation Sorting.Sorted.
From Stdlib Require DecimalPos.
From stdpp Require Import gmap strings list.

Local Open Scope Z_scope.

(** ** Exceptions and fallible results *)

Inductive exn : Type :=
| ValueError
| IndexError
| ZeroDivisionError
| OverflowError.

Inductive result (A : Type) : Type :=
| Ok (a : A)
| Raise (e : exn).

Arguments Ok {A} a.
Arguments Raise {A} e.

#[global] Instance result_ret : MRet result := fun A a => Ok a.

#[global] Instance result_bind : MBind result := fun A B k r =>
  match r with
  | Ok a => k a
  | Raise e => Raise e
  end.

#[global] Instance result_fmap : FMap result := fun A B f r =>
  match r with
  | Ok a => Ok (f a)
  | Raise e => Raise e
  end.

(** [try: r except Exception: d] *)
Definition try_except {A : Type} (r : result A) (d : A) : A :=
  match r with
  | Ok a => a
  | Raise _ => d
  end.

(** [l[i]] *)
Definition index {A : Type} (l : list A) (i : nat) : result A :=
  match l !! i with
  | Some x => Ok x
  | None => Raise IndexError
  end.

(** [l[i] if len(l) > i else ""] *)
Definition item_or_empty (l : list string) (i : nat) : result string :=
  if (i <? length l)%nat then index l i else Ok EmptyString.

(** ** Python string primitives *)

Module Py.

Definition code (c : ascii) : N := N_of_ascii c.

(** [str.isspace] on one character, which is also the class [\s] of [re]. *)
Definition isspace (c : ascii) : bool :=
  let n := code c in
  ((9 <=? n) && (n <=? 13) || (28 <=? n) && (n <=? 32) || (n =? 133) || (n =? 160))%N.

(** The blanks that [int()] and [float()] skip around a literal. *)
Definition isspace_num (c : ascii) : bool :=
  let n := code c in
  ((9 <=? n) && (n <=? 13) || (n =? 32) || (n =? 133) || (n =? 160))%N.

(** The value of an ASCII decimal digit. *)
Definition digit_of (c : ascii) : option Z :=
  let n := code c in
  if ((48 <=? n) && (n <=? 57))%N then Some (Z.of_N n - 48) else None.

(** [str.isdigit] on one character: the ASCII digits and the superscripts
    two, three and one. *)
Definition isdigit_char (c : ascii) : bool :=
  let n := code c in
  ((48 <=? n) && (n <=? 57) || (n =? 178) || (n =? 179) || (n =? 185))%N.

Fixpoint all_chars (p : ascii -> bool) (s : string) : bool :=
  match s with
  | EmptyString => true
  | String c s' => p c && all_chars p s'
  end.

(** [s.isdigit()] *)
Definition isdigit (s : string) : bool :=
  match s with
  | EmptyString => false
  | _ => all_chars isdigit_char s
  end.

(** Truthiness of a string. *)
Definition truthy (s : string) : bool :=
  match s with
  | EmptyString => false
  | _ => true
  end.

Fixpoint lstrip_by (p : ascii -> bool) (s : string) : string :=
  match s with
  | EmptyString => EmptyString
  | String c s' => if p c then lstrip_by p s' else s
  end.

Fixpoint rstrip_by (p : ascii -> bool) (s : string) : string :=
  match s with
  | EmptyString => EmptyString
  | String c s' =>
      match rstrip_by p s' with
      | EmptyString => if p c then EmptyString else String c EmptyString
      | r => String c r
      end
  end.

(** [s.strip()] *)
Definition strip (s : string) : string := rstrip_by isspace (lstrip_by isspace s).

(** [s.startswith(p)] *)
Fixpoint startswith (p s : string) : bool :=
  match p, s with
  | EmptyString, _ => true
  | String a p', String b s' => Ascii.eqb a b && startswith p' s'
  | String _ _, EmptyString => false
  end.

(** [s.split(sep)] for a separator of one character. *)
Fixpoint split (sep : ascii) (s : string) : list string :=
  match s with
  | EmptyString => [EmptyString]
  | String c s' =>
      if Ascii.eqb c sep then EmptyString :: split sep s'
      else match split sep s' with
           | h :: t => String c h :: t
           | [] => [String c EmptyString]
           end
  end.

(** [s.split(sep, 1)] when [sep in s]: the text before the first separator
    and the text after it; [None] when the separator does not occur. *)
Fixpoint split_once (sep : ascii) (s : string) : option (string * string) :=
  match s with
  | EmptyString => None
  | String c s' =>
      if Ascii.eqb c sep then Some (EmptyString, s')
      else match split_once sep s' with
           | Some (k, v) => Some (String c k, v)
           | None => None
           end
  end.

(** [re.split(r"\s+", s)]: the pieces between maximal runs of blanks. *)
Fixpoint re_split_ws (s : string) : list string :=
  match s with
  | EmptyString => [EmptyString]
  | String c s' =>
      if isspace c then
        EmptyString ::
          match s' with
          | String c' _ => if isspace c' then tail (re_split_ws s') else re_split_ws s'
          | EmptyString => re_split_ws s'
          end
      else match re_split_ws s' with
           | h :: t => String c h :: t
           | [] => [String c EmptyString]
           end
  end.

(** [sep.join(l)] *)
Fixpoint join (sep : string) (l : list string) : string :=
  match l with
  | [] => EmptyString
  | [x] => x
  | x :: l' => String.append x (String.append sep (join sep l'))
  end.

(** [s[:n]] *)
Fixpoint take_str (n : nat) (s : string) : string :=
  match n, s with
  | S n', String c s' => String c (take_str n' s')
  | _, _ => EmptyString
  end.

(** The digits of an integer literal: decimal digits, single underscores
    allowed between two digits. [prev] tells that the previous character was
    a digit. *)
Fixpoint int_digits (s : string) (acc : Z) (prev : bool) : option Z :=
  match s with
  | EmptyString => if prev then Some acc else None
  | String c s' =>
      match digit_of c with
      | Some d => int_digits s' (10 * acc + d) true
      | None =>
          if Ascii.eqb c "_" && prev then int_digits s' acc false else None
      end
  end.

(** [int(s)] *)
Definition int (s : string) : result Z :=
  match rstrip_by isspace_num (lstrip_by isspace_num s) with
  | String "-" r =>
      match int_digits r 0 false with
      | Some n => Ok (- n)
      | None => Raise ValueError
      end
  | String "+" r =>
      match int_digits r 0 false with
      | Some n => Ok n
      | None => Raise ValueError
      end
  | r =>
      match int_digits r 0 false with
      | Some n => Ok n
      | None => Raise ValueError
      end
  end.

(** [str(n)] for an integer. *)
Definition str_int (n : Z) : string := NilZero.string_of_int (Z.to_int n).

End Py.

(** ** Python floats: binary64, every operation correctly rounded *)

Module Float.

#[global] Instance spec_float_eq_dec : EqDecision spec_float.
Proof. solve_decision. Defined.

Definition prec : Z := 53.
Definition emax : Z := 1024.

(** The binary64 number nearest to [n / d] (ties to even), for [0 <= n] and
    [0 < d]; a zero keeps the sign [neg]. Python's [float(str)], [int / int]
    and [round(x, ndigits)] all round a rational this way. *)
Definition of_ratio (neg : bool) (n d : Z) : spec_float :=
  match n with
  | Zpos _ =>
      let '(mz, ez, lz) := SFdiv_core_binary prec emax n 0 d 0 in
      binary_round_aux prec emax neg mz ez lz
  | _ => S754_zero neg
  end.

(** [x < y], [x <= y] and [x >= y]: false as soon as one side is a NaN. *)
Definition ltb (x y : spec_float) : bool := SFltb x y.
Definition leb (x y : spec_float) : bool := SFleb x y.
Definition geb (x y : spec_float) : bool :=
  match SFcompare x y with
  | Some (Gt | Eq) => true
  | _ => false
  end.

(** Truthiness of a float: false for both zeros only. *)
Definition truthy (x : spec_float) : bool :=
  match x with
  | S754_zero _ => false
  | _ => true
  end.

Definition zero : spec_float := S754_zero false.

(** The literals of the source. *)
Definition lit_0_3 : spec_float := of_ratio false 3 10.
Definition lit_0_7 : spec_float := of_ratio false 7 10.

Definition lower (c : ascii) : ascii :=
  let n := Py.code c in
  if ((65 <=? n) && (n <=? 90))%N then ascii_of_N (n + 32) else c.

Fixpoint lower_str (s : string) : string :=
  match s with
  | EmptyString => EmptyString
  | String c s' => String (lower c) (lower_str s')
  end.

(** A run of decimal digits with single underscores between digits: its
    value, the number of digits, and the text after it. [None] when an
    underscore does not sit between two digits. *)
Fixpoint scan_digits (s : string) (acc cnt : Z) (prev : bool)
  : option (Z * Z * string) :=
  match s with
  | EmptyString => Some (acc, cnt, EmptyString)
  | String c s' =>
      match Py.digit_of c with
      | Some d => scan_digits s' (10 * acc + d) (cnt + 1) true
      | None =>
          if Ascii.eqb c "_" then
            if prev then
              match s' with
              | String c' _ =>
                  if bool_decide (is_Some (Py.digit_of c'))
                  then scan_digits s' acc cnt false else None
              | EmptyString => None
              end
            else None
          else Some (acc, cnt, s)
      end
  end.

(** The exponent part, when there is one: [e] or [E], a sign, digits. *)
Definition scan_exponent (s : string) : option (Z * string) :=
  match s with
  | String c r =>
      if Ascii.eqb (lower c) "e" then
        let '(neg, r') :=
          match r with
          | String "-" t => (true, t)
          | String "+" t => (false, t)
          | _ => (false, r)
          end in
        match scan_digits r' 0 0 false with
        | Some (v, cnt, rest) =>
            if 0 <? cnt then Some (if neg then - v else v, rest) else None
        | None => None
        end
      else Some (0, s)
  | EmptyString => Some (0, s)
  end.

(** A decimal literal without sign: mantissa digits, a point, an exponent. *)
Definition parse_decimal (neg : bool) (s : string) : option spec_float :=
  match scan_digits s 0 0 false with
  | Some (ip, ic, r1) =>
      let frac :=
        match r1 with
        | String "." r => scan_digits r 0 0 false
        | _ => Some (0, 0, r1)
        end in
      match frac with
      | Some (fp, fc, r2) =>
          if 0 <? ic + fc then
            match scan_exponent r2 with
            | Some (ex, EmptyString) =>
                let mant := ip * 10 ^ fc + fp in
                let e10 := ex - fc in
                Some (if 0 <=? e10 then of_ratio neg (mant * 10 ^ e10) 1
                      else of_ratio neg mant (10 ^ (- e10)))
            | _ => None
            end
          else None
      | None => None
      end
  | None => None
  end.

Definition parse_unsigned (neg : bool) (s : string) : option spec_float :=
  let l := lower_str s in
  if bool_decide (l = "inf" \/ l = "infinity") then Some (S754_infinity neg)
  else if bool_decide (l = "nan") then Some S754_nan
  else parse_decimal neg s.

(** [float(s)] for a string. *)
Definition of_str (s : string) : result spec_float :=
  let t := Py.rstrip_by Py.isspace_num (Py.lstrip_by Py.isspace_num s) in
  let r :=
    match t with
    | String "-" u => parse_unsigned true u
    | String "+" u => parse_unsigned false u
    | _ => parse_unsigned false t
    end in
  match r with
  | Some x => Ok x
  | None => Raise ValueError
  end.

(** [a / b] on integers. *)
Definition truediv (a b : Z) : result spec_float :=
  if b =? 0 then Raise ZeroDivisionError
  else
    match of_ratio (xorb (a <? 0) (b <? 0)) (Z.abs a) (Z.abs b) with
    | S754_infinity _ => Raise OverflowError
    | q => Ok q
    end.

(** [n / d] rounded to the nearest integer, ties to even, for [0 < d]. *)
Definition div_half_even (n d : Z) : Z :=
  let q := n / d in
  let r := n mod d in
  match 2 * r ?= d with
  | Lt => q
  | Gt => q + 1
  | Eq => if Z.even q then q else q + 1
  end.

(** [round(x, 3)] *)
Definition round3 (x : spec_float) : spec_float :=
  match x with
  | S754_finite s m e =>
      let k :=
        if 0 <=? e then Zpos m * 1000 * 2 ^ e
        else div_half_even (Zpos m * 1000) (2 ^ (- e)) in
      of_ratio s k 1000
  | _ => x
  end.

(** *** [repr(x)]: the shortest decimal text that reads back as [x] *)

(** [x = n / d] as a fraction of integers, for a finite positive [x]. *)
Definition num (m : positive) (e : Z) : Z := if 0 <=? e then Zpos m * 2 ^ e else Zpos m.
Definition den (e : Z) : Z := if 0 <=? e then 1 else 2 ^ (- e).

(** The decimal [k * 10 ^ p] read as a float. *)
Definition of_decimal (k p : Z) : spec_float :=
  if 0 <=? p then of_ratio false (k * 10 ^ p) 1 else of_ratio false k (10 ^ (- p)).

(** Moves an estimate [E] of the decimal exponent until
    [10 ^ E <= n / d < 10 ^ (E + 1)]. *)
Fixpoint adjust_exp10 (fuel : nat) (n d E : Z) : Z :=
  match fuel with
  | O => E
  | S fuel' =>
      let below := if 0 <=? E then n <? d * 10 ^ E else n * 10 ^ (- E) <? d in
      let above :=
        if 0 <=? E + 1 then d * 10 ^ (E + 1) <=? n else d <=? n * 10 ^ (- (E + 1)) in
      if below then adjust_exp10 fuel' n d (E - 1)
      else if above then adjust_exp10 fuel' n d (E + 1)
      else E
  end.

Definition exp10 (n d : Z) : Z :=
  adjust_exp10 8 n d ((Z.log2 n - Z.log2 d) * 1233 / 4096).

(** With [cnt] digits: the neighbours of [n / d] among the multiples of
    [10 ^ p], and the one of them that reads back as [x], the nearer one
    when both do. *)
Definition candidate (x : spec_float) (n d E : Z) (cnt : Z) : option (Z * Z) :=
  let p := E - cnt + 1 in
  let N := if 0 <=? p then n else n * 10 ^ (- p) in
  let D := if 0 <=? p then d * 10 ^ p else d in
  let lo := N / D in
  let r := N mod D in
  let ok k := bool_decide (of_decimal k p = x) in
  if r =? 0 then Some (lo, p)
  else
    match ok lo, ok (lo + 1) with
    | true, true => Some (div_half_even N D, p)
    | true, false => Some (lo, p)
    | false, true => Some (lo + 1, p)
    | false, false => None
    end.

Fixpoint shortest (fuel : nat) (x : spec_float) (n d E : Z) (cnt : Z) : Z * Z :=
  match fuel with
  | O => (div_half_even (if 0 <=? E - 16 then n else n * 10 ^ (16 - E))
                        (if 0 <=? E - 16 then d * 10 ^ (E - 16) else d), E - 16)
  | S fuel' =>
      match candidate x n d E cnt with
      | Some kp => kp
      | None => shortest fuel' x n d E (cnt + 1)
      end
  end.

Fixpoint rstrip_zeros (s : string) : string :=
  match s with
  | EmptyString => EmptyString
  | String c s' =>
      match rstrip_zeros s' with
      | EmptyString => if Ascii.eqb c "0" then EmptyString else String c EmptyString
      | r => String c r
      end
  end.

Fixpoint zeros (n : nat) : string :=
  match n with
  | O => EmptyString
  | S n' => String "0" (zeros n')
  end.

Fixpoint drop_str (n : nat) (s : string) : string :=
  match n, s with
  | S n', String _ s' => drop_str n' s'
  | _, _ => s
  end.

(** The digits [ds] with the decimal point after the first [decpt] of them,
    laid out as [repr] does. *)
Definition layout (ds : string) (decpt : Z) : string :=
  let len := Z.of_nat (String.length ds) in
  if (decpt <=? -4) || (16 <? decpt) then
    let e := decpt - 1 in
    let es := Py.str_int (Z.abs e) in
    let mant :=
      match ds with
      | String c EmptyString => ds
      | String c r => String c (String "." r)
      | EmptyString => ds
      end in
    String.append mant
      (String.append (if e <? 0 then "e-" else "e+")
         (if Z.abs e <? 10 then String "0" es else es))
  else if decpt <=? 0 then
    String.append "0." (String.append (zeros (Z.to_nat (- decpt))) ds)
  else if len <=? decpt then
    String.append ds (String.append (zeros (Z.to_nat (decpt - len))) ".0")
  else
    String.append (Py.take_str (Z.to_nat decpt) ds)
      (String "." (drop_str (Z.to_nat decpt) ds)).

(** [repr(x)], which is also [str(x)] and what [csv.writer] writes for a
    float. *)
Definition repr (x : spec_float) : string :=
  match x with
  | S754_nan => "nan"
  | S754_infinity s => if s then "-inf" else "inf"
  | S754_zero s => if s then "-0.0" else "0.0"
  | S754_finite s m e =>
      let n := num m e in
      let d := den e in
      let '(k, p) := shortest 17 (S754_finite false m e) n d (exp10 n d) 1 in
      let ks := Py.str_int k in
      let body := layout (rstrip_zeros ks) (p + Z.of_nat (String.length ks)) in
      if s then String "-" body else body
  end.

End Float.

(** The line feed that ends the lines written to the text outputs. *)
Definition nl : string := String (ascii_of_N 10) EmptyString.

(** ** [src/vcf_triage.py] *)

Module Triage.

(** *** The annotation dictionary [INFO] *)

Definition parse_info_field (out : gmap string string) (field : string)
  : gmap string string :=
  if Py.truthy field then
    match Py.split_once "=" field with
    | Some (k, v) => <[k := v]> out
    | None => <[field := "True"]> out
    end
  else out.

Definition parse_info (s : string) : gmap string string :=
  foldl parse_info_field ∅ (Py.split ";" s).

Definition parse_ann (info : gmap string string)
  : result (string * string * string * string) :=
  let ann := default "" (info !! "ANN") in
  if negb (Py.truthy ann) then Ok ("", "", "", "")
  else
    first ← index (Py.split "," ann) 0;
    let parts := Py.split "|" first in
    gene ← item_or_empty parts 3;
    consequence ← item_or_empty parts 1;
    hgvsc ← item_or_empty parts 9;
    hgvsp ← item_or_empty parts 10;
    Ok (gene, consequence, hgvsc, hgvsp).

(** *** Allele balance *)

(** The body of the [try] block of [allele_balance]. *)
Definition allele_balance_try (ad : string) : result (option spec_float) :=
  ints ← mapM Py.int (take 2 (Py.split "," ad));
  match ints with
  | [ref; alt] =>
      let tot := ref + alt in
      if tot =? 0 then Ok None
      else q ← Float.truediv alt tot; Ok (Some (Float.round3 q))
  | _ => Raise ValueError
  end.

Definition allele_balance (fmt_map : gmap string string) : option spec_float :=
  match fmt_map !! "AD" with
  | None => None
  | Some ad =>
      if negb (Py.truthy ad) then None
      else try_except (allele_balance_try ad) None
  end.

(** *** The record reader *)

Record VariantRecord : Type := {
  CHROM : string;
  POS : Z;
  REF : string;
  ALT : list string;
  QUAL : option spec_float;
  FILTER : string;
  INFO : gmap string string;
  FORMAT : gmap string string
}.

(** [{k: (vals[i] if i < len(vals) else "") for i, k in enumerate(keys)}] *)
Fixpoint zip_format (keys vals : list string) (out : gmap string string)
  : gmap string string :=
  match keys with
  | [] => out
  | k :: keys' =>
      zip_format keys' (tail vals) (<[k := default "" (head vals)]> out)
  end.

(** [None if qual in (".", "") else float(qual)] *)
Definition parse_qual (qual : string) : result (option spec_float) :=
  if bool_decide (qual = "." ∨ qual = "") then Ok None
  else q ← Float.of_str qual; Ok (Some q).

(** The tokens of a data line. *)
Definition tokens (line : string) : list string := Py.re_split_ws (Py.strip line).

(** What one line of the file makes the iterator do: pass over it
    ([Ok None]), yield a record, or raise. *)
Definition read_line (line : string) : result (option VariantRecord) :=
  if Py.startswith "##" line then Ok None
  else if Py.startswith "#CHROM" line then Ok None
  else if negb (Py.truthy (Py.strip line)) then Ok None
  else
    let fields := tokens line in
    if (length fields <? 8)%nat then Ok None
    else
      match take 8 fields with
      | [chrom; pos; _id; ref; alt; qual; flt; info] =>
          fmt ← item_or_empty fields 8;
          sample ← item_or_empty fields 9;
          let fmt_map :=
            if Py.truthy fmt && Py.truthy sample
            then zip_format (Py.split ":" fmt) (Py.split ":" sample) ∅
            else ∅ in
          p ← Py.int pos;
          q ← parse_qual qual;
          Ok (Some {| CHROM := chrom; POS := p; REF := ref;
                      ALT := Py.split "," alt; QUAL := q;
                      FILTER := if bool_decide (flt = ".") then "PASS" else flt;
                      INFO := parse_info info; FORMAT := fmt_map |})
      | _ => Raise ValueError
      end.

(** The records the generator yields, in order; a [Raise] ends it. *)
Fixpoint simple_vcf_iter (lines : list string) : list (result VariantRecord) :=
  match lines with
  | [] => []
  | line :: rest =>
      match read_line line with
      | Ok None => simple_vcf_iter rest
      | Ok (Some rec) => Ok rec :: simple_vcf_iter rest
      | Raise e => [Raise e]
      end
  end.

(** *** The filter chain *)

Record FilterConfig : Type := {
  min_dp : Z;
  min_qual : spec_float;
  max_af : spec_float;
  include_nonpass : bool;
  genes_set : option (gset string);
  summary_path : option string
}.

(** The defaults of [triage]: [min_dp=10], [min_qual=30.0], [max_af=0.01],
    PASS only, no allowlist, no summary. *)
Definition default_config : FilterConfig :=
  {| min_dp := 10; min_qual := Float.of_ratio false 30 1;
     max_af := Float.of_ratio false 1 100; include_nonpass := false;
     genes_set := None; summary_path := None |}.

(** One output row, before [csv.writer] turns its cells into text. *)
Record TriageRow : Type := {
  row_chrom : string;
  row_pos : Z;
  row_ref : string;
  row_alt : string;
  row_gene : string;
  row_consequence : string;
  row_hgvs_c : string;
  row_hgvs_p : string;
  row_af : option spec_float;
  row_gt : string;
  row_dp : Z;
  row_ab : option spec_float;
  row_filters : string
}.

(** The six rules, in the order the loop body applies them. *)
Inductive rule : Type :=
| NonPass
| Quality
| Frequency
| Depth
| AlleleBalance
| GeneList.

(** How a turn of the loop ends when nothing raises: at the [continue] of a
    rule, or in the inner loop with what every row of the record shares. *)
Inductive verdict : Type :=
| Dropped (r : rule)
| Kept (t : TriageRow).

(** [not include_nonpass and flt != "PASS"] *)
Definition drop_nonpass (cfg : FilterConfig) (flt : string) : bool :=
  negb (include_nonpass cfg) && negb (bool_decide (flt = "PASS")).

(** [float(rec["QUAL"] or 0.0)] *)
Definition qual_or_zero (q : option spec_float) : spec_float :=
  match q with
  | Some x => if Float.truthy x then x else Float.zero
  | None => Float.zero
  end.

(** [qual < min_qual] *)
Definition drop_qual (cfg : FilterConfig) (qual : spec_float) : bool :=
  Float.ltb qual (min_qual cfg).

(** [float(af_raw) if af_raw not in (None, "") else None] *)
Definition parse_af (info : gmap string string) : result (option spec_float) :=
  match info !! "AF" with
  | None => Ok None
  | Some af_raw =>
      if bool_decide (af_raw = "") then Ok None
      else a ← Float.of_str af_raw; Ok (Some a)
  end.

(** [af is not None and af >= max_af] *)
Definition drop_af (cfg : FilterConfig) (af : option spec_float) : bool :=
  match af with
  | Some a => Float.geb a (max_af cfg)
  | None => false
  end.

(** [int(fmt.get("DP", 0) or 0)] *)
Definition parse_dp (fmt : gmap string string) : result Z :=
  match fmt !! "DP" with
  | None => Ok 0
  | Some s => if Py.truthy s then Py.int s else Ok 0
  end.

(** [dp < min_dp] *)
Definition drop_dp (cfg : FilterConfig) (dp : Z) : bool := dp <? min_dp cfg.

(** [gt in ("0/1", "1/0") and ab is not None and not (0.3 <= ab <= 0.7)] *)
Definition drop_ab (gt : string) (ab : option spec_float) : bool :=
  bool_decide (gt = "0/1" ∨ gt = "1/0") &&
  match ab with
  | Some b => negb (Float.leb Float.lit_0_3 b && Float.leb b Float.lit_0_7)
  | None => false
  end.

(** [genes_set is not None] and [not gene or gene not in genes_set] *)
Definition drop_gene (cfg : FilterConfig) (gene : string) : bool :=
  match genes_set cfg with
  | Some gs => negb (Py.truthy gene) || negb (bool_decide (gene ∈ gs))
  | None => false
  end.

(** The loop body of [triage] up to the inner loop. *)
Definition keep_record (cfg : FilterConfig) (rec : VariantRecord)
  : result verdict :=
  let flt := FILTER rec in
  if drop_nonpass cfg flt then Ok (Dropped NonPass)
  else
    let qual := qual_or_zero (QUAL rec) in
    if drop_qual cfg qual then Ok (Dropped Quality)
    else
      let info := INFO rec in
      af ← parse_af info;
      if drop_af cfg af then Ok (Dropped Frequency)
      else
        let fmt := FORMAT rec in
        dp ← parse_dp fmt;
        if drop_dp cfg dp then Ok (Dropped Depth)
        else
          let gt := default "" (fmt !! "GT") in
          let ab := allele_balance fmt in
          if drop_ab gt ab then Ok (Dropped AlleleBalance)
          else
            '(gene, consequence, hgvsc, hgvsp) ← parse_ann info;
            if drop_gene cfg gene then Ok (Dropped GeneList)
            else
              Ok (Kept {| row_chrom := CHROM rec; row_pos := POS rec;
                          row_ref := REF rec; row_alt := "";
                          row_gene := gene; row_consequence := consequence;
                          row_hgvs_c := hgvsc; row_hgvs_p := hgvsp;
                          row_af := af; row_gt := gt; row_dp := dp;
                          row_ab := ab; row_filters := flt |}).

(** The consequence counter: a dictionary in insertion order. *)
Fixpoint dict_get (d : list (string * Z)) (k : string) (dflt : Z) : Z :=
  match d with
  | [] => dflt
  | (k', v) :: d' => if bool_decide (k' = k) then v else dict_get d' k dflt
  end.

Fixpoint dict_set (d : list (string * Z)) (k : string) (v : Z) : list (string * Z) :=
  match d with
  | [] => [(k, v)]
  | (k', v') :: d' =>
      if bool_decide (k' = k) then (k, v) :: d' else (k', v') :: dict_set d' k v
  end.

(** What the loop of [triage] carries from one record to the next: the rows
    written so far, [kept] and [by_consequence]. *)
Record state : Type := {
  rows : list TriageRow;
  kept : Z;
  by_consequence : list (string * Z)
}.

Definition init : state := {| rows := []; kept := 0; by_consequence := [] |}.

Definition with_alt (t : TriageRow) (alt : string) : TriageRow :=
  {| row_chrom := row_chrom t; row_pos := row_pos t; row_ref := row_ref t;
     row_alt := alt; row_gene := row_gene t;
     row_consequence := row_consequence t; row_hgvs_c := row_hgvs_c t;
     row_hgvs_p := row_hgvs_p t; row_af := row_af t; row_gt := row_gt t;
     row_dp := row_dp t; row_ab := row_ab t; row_filters := row_filters t |}.

(** One turn of [for alt in rec["ALT"]]. *)
Definition emit_row (t : TriageRow) (st : state) (alt : string) : state :=
  {| rows := rows st ++ [with_alt t alt];
     kept := kept st + 1;
     by_consequence :=
       if Py.truthy (row_consequence t)
       then dict_set (by_consequence st) (row_consequence t)
              (dict_get (by_consequence st) (row_consequence t) 0 + 1)
       else by_consequence st |}.

(** One turn of [for rec in simple_vcf_iter(vcf_path)]. *)
Definition triage_record (cfg : FilterConfig) (st : state) (rec : VariantRecord)
  : result state :=
  k ← keep_record cfg rec;
  match k with
  | Dropped _ => Ok st
  | Kept t => Ok (foldl (emit_row t) st (ALT rec))
  end.

(** The loop: the state it ends in, and the exception that ended it if one
    did. The rows written before an exception stay in the file. *)
Fixpoint triage_loop (cfg : FilterConfig) (st : state)
  (recs : list (result VariantRecord)) : state * option exn :=
  match recs with
  | [] => (st, None)
  | Raise e :: _ => (st, Some e)
  | Ok rec :: recs' =>
      match triage_record cfg st rec with
      | Ok st' => triage_loop cfg st' recs'
      | Raise e => (st, Some e)
      end
  end.

(** *** The report *)

Definition cols : list string :=
  ["chrom"; "pos"; "ref"; "alt"; "gene"; "consequence"; "hgvs_c"; "hgvs_p";
   "af"; "gt"; "dp"; "ab"; "filters"].

Definition float_cell (x : option spec_float) : string :=
  match x with
  | Some f => Float.repr f
  | None => ""
  end.

(** The cells of a row as [csv.writer] writes them. *)
Definition csv_row (r : TriageRow) : list string :=
  [row_chrom r; Py.str_int (row_pos r); row_ref r; row_alt r; row_gene r;
   row_consequence r; row_hgvs_c r; row_hgvs_p r; float_cell (row_af r);
   row_gt r; Py.str_int (row_dp r); float_cell (row_ab r); row_filters r].

(** The key of the summary's sort: [(-x[1], x[0])], compared as tuples. *)
Definition key_lt (x y : string * Z) : bool :=
  (- x.2 <? - y.2) || ((- x.2 =? - y.2) && String.ltb x.1 y.1).

(** [sorted(l, key=...)]: a stable sort that only asks whether one key is
    less than another. *)
Fixpoint insert_by {A : Type} (lt : A -> A -> bool) (x : A) (l : list A) : list A :=
  match l with
  | [] => [x]
  | y :: l' => if lt y x then y :: insert_by lt x l' else x :: l
  end.

Definition sorted_by {A : Type} (lt : A -> A -> bool) (l : list A) : list A :=
  foldr (insert_by lt) [] l.

Definition consequence_line (kv : string * Z) : string :=
  "  " +:+ kv.1 +:+ ": " +:+ Py.str_int kv.2 +:+ nl.

(** The successive [s.write(...)] of the summary. *)
Definition summary_writes (st : state) : list string :=
  ("Kept variants: " +:+ Py.str_int (kept st) +:+ nl) ::
  match by_consequence st with
  | [] => []
  | _ =>
      ("By consequence:" +:+ nl) ::
      map consequence_line (sorted_by key_lt (by_consequence st))
  end.

(** What a run leaves behind: the table in [out_csv] (header row first),
    the text of the summary when the loop ended normally and a summary path
    is given, the exception that ended the run if one did, and the last
    state of the loop. *)
Record output : Type := {
  table : list (list string);
  summary : option string;
  raised : option exn;
  final : state
}.

Definition triage (cfg : FilterConfig) (lines : list string) : output :=
  let '(st, e) := triage_loop cfg init (simple_vcf_iter lines) in
  {| table := cols :: map csv_row (rows st);
     summary :=
       match e, summary_path cfg with
       | None, Some p =>
           if Py.truthy p then Some (Py.join "" (summary_writes st)) else None
       | _, _ => None
       end;
     raised := e;
     final := st |}.

(** *** The command line *)

(** The parsed arguments of [main] that reach [triage]; the two input files
    are passed as their lines. *)
Record args : Type := {
  arg_min_dp : Z;
  arg_min_qual : spec_float;
  arg_max_af : spec_float;
  arg_include_nonpass : bool;
  arg_genes : option string;
  arg_summary : option string
}.

(** [{line.strip() for line in gf if line.strip()}] *)
Definition read_genes (gf : list string) : gset string :=
  list_to_set (map Py.strip (filter (fun line => Py.truthy (Py.strip line)) gf)).

Definition main (a : args) (vcf gf : list string) : output :=
  let genes_set :=
    match arg_genes a with
    | Some path => if Py.truthy path then Some (read_genes gf) else None
    | None => None
    end in
  triage {| min_dp := arg_min_dp a; min_qual := arg_min_qual a;
            max_af := arg_max_af a; include_nonpass := arg_include_nonpass a;
            genes_set := genes_set; summary_path := arg_summary a |} vcf.

End Triage.

(** ** [src/igv_batch.py] *)

Module Igv.

(** The characters [sanitize_filename] replaces: the angle brackets, the
    colon, the double quote, both slashes, the bar, the question mark, the
    star, the space and the tab. *)
Definition bad : list N := [60; 62; 58; 34; 47; 92; 124; 63; 42; 32; 9]%N.

Fixpoint replace_bad (s : string) : string :=
  match s with
  | EmptyString => EmptyString
  | String ch s' =>
      String (if bool_decide (Py.code ch ∈ bad) then "_"%char else ch) (replace_bad s')
  end.

Definition sanitize_filename (s : string) : string :=
  let out := replace_bad s in
  if (80 <? String.length out)%nat then Py.take_str 80 out else out.

Record options : Type := {
  genome : string;
  bam : option string;
  bam_col : option string;
  flank : Z;
  snapshot_dir : option string;
  snapshot_prefix : option string
}.

(** Truthiness of an optional string: [None] and the empty string are false. *)
Definition given (o : option string) : bool :=
  match o with
  | Some s => Py.truthy s
  | None => false
  end.

(** A row of [csv.DictReader]: the header zipped with the cells, a later
    column of the same name winning; then every column the row is too short
    for is set to [None], also when an earlier column of the same name had a
    cell. A [get] cannot tell [None] from a key that is not there, so these
    columns are deleted. *)
Definition dict_row (header row : list string) : gmap string string :=
  foldl (fun d k => delete k d)
    (foldl (fun d kv => <[kv.1 := kv.2]> d) ∅ (zip header row))
    (drop (length row) header).

(** [list(csv.DictReader(f))] on the records that [csv.reader] finds in the
    file: the first one is the header, empty ones are passed over. *)
Definition dict_reader (records : list (list string)) : list (gmap string string) :=
  match records with
  | [] => []
  | header :: data =>
      map (dict_row header) (filter (fun row => row ≠ []) data)
  end.

(** [r.get(k1) or r.get(k2) or ... or ""] *)
Fixpoint get_or (r : gmap string string) (keys : list string) : string :=
  match keys with
  | [] => ""
  | k :: keys' =>
      match r !! k with
      | Some v => if Py.truthy v then v else get_or r keys'
      | None => get_or r keys'
      end
  end.

Definition goto_line (chrom : string) (start end_ : Z) : string :=
  "goto " +:+ chrom +:+ ":" +:+ Py.str_int start +:+ "-" +:+ Py.str_int end_.

(** The snapshot command of a row. *)
Definition snapshot_line (o : options) (r : gmap string string)
  (chrom : string) (pos : Z) : result string :=
  let gene := Py.strip (get_or r ["gene"; "GENE"]) in
  let consequence :=
    Py.strip (get_or r ["consequence"; "Consequences"; "CONSEQUENCE"]) in
  short ←
    (if Py.truthy consequence
     then c ← index (Py.split "&" consequence) 0; Ok [Py.take_str 24 c]
     else Ok []);
  let label_parts :=
    [chrom; Py.str_int pos] ++ (if Py.truthy gene then [gene] else []) ++ short in
  let base_name := Py.join "_" label_parts in
  let base_name :=
    if given (snapshot_prefix o)
    then default "" (snapshot_prefix o) +:+ "_" +:+ base_name
    else base_name in
  Ok ("snapshot " +:+ sanitize_filename base_name +:+ ".png").

(** One turn of [for r in rows]: [Ok None] is the [continue] of a malformed
    row, [Ok (Some l)] the lines appended for a locus. *)
Definition row_lines (o : options) (r : gmap string string)
  : result (option (list string)) :=
  let chrom := Py.strip (get_or r ["chrom"; "CHROM"]) in
  let pos_str := Py.strip (get_or r ["pos"; "POS"]) in
  if negb (Py.truthy chrom) || negb (Py.isdigit pos_str) then Ok None
  else
    pos ← Py.int pos_str;
    let start := Z.max 1 (pos - flank o) in
    let end_ := pos + flank o in
    let load :=
      if given (bam_col o) then
        let row_bam_path := Py.strip (get_or r [default "" (bam_col o)]) in
        if Py.truthy row_bam_path then ["load " +:+ row_bam_path] else []
      else [] in
    snap ←
      match snapshot_dir o with
      | Some _ => l ← snapshot_line o r chrom pos; Ok [l]
      | None => Ok []
      end;
    Ok (Some (load ++ [goto_line chrom start end_] ++ snap)).

Fixpoint loop (o : options) (rows : list (gmap string string))
  (out_lines : list string) (count : Z) : result (list string * Z) :=
  match rows with
  | [] => Ok (out_lines, count)
  | r :: rows' =>
      l ← row_lines o r;
      match l with
      | None => loop o rows' out_lines count
      | Some ls => loop o rows' (out_lines ++ ls) (count + 1)
      end
  end.

(** What a call that returns leaves behind: the lines accumulated in
    [out_lines], the text written to [out_path], and the returned count. *)
Record batch : Type := {
  out_lines : list string;
  written : string;
  count : Z
}.

(** [Path(out_path).write_text("\n".join(out_lines) + "\n")] *)
Definition write_text (out_lines : list string) : string :=
  Py.join nl out_lines +:+ nl.

Definition header_lines (o : options) : list string :=
  ["new"; "genome " +:+ genome o].

Definition make_igv_batch (o : options) (records : list (list string))
  : result batch :=
  let out_lines := header_lines o in
  let rows := dict_reader records in
  match rows with
  | [] => Ok {| out_lines := out_lines; written := write_text out_lines; count := 0 |}
  | _ =>
      let out_lines :=
        if given (bam o) then out_lines ++ ["load " +:+ default "" (bam o)]
        else out_lines in
      let out_lines :=
        if given (snapshot_dir o)
        then out_lines ++ ["snapshotDirectory " +:+ default "" (snapshot_dir o)]
        else out_lines in
      '(out_lines, count) ← loop o rows out_lines 0;
      Ok {| out_lines := out_lines; written := write_text out_lines; count := count |}
  end.

(** The kinds of command in a script. *)
Definition is_load (l : string) : bool := Py.startswith "load " l.
Definition is_goto (l : string) : bool := Py.startswith "goto " l.

End Igv.

(** ** Words of the specification *)

Module Spec.

(** The first [sep]-separated entry of a text: what comes before the first
    separator, the whole text when there is none. *)
Fixpoint first_entry (sep : ascii) (s : string) : string :=
  match s with
  | EmptyString => EmptyString
  | String c s' => if Ascii.eqb c sep then EmptyString else String c (first_entry sep s')
  end.

(** The sub-field at an index, the empty string when the index is out of
    range. *)
Definition subfield (parts : list string) (i : nat) : string :=
  default EmptyString (parts !! i).

(** The allele balance of a per-sample map is computable, and is [b]: the
    [AD] value has at least two comma-separated entries, the first two read
    as integers [ref] and [alt], their sum is not zero, [alt / (ref + alt)]
    is a float, and [b] is that float rounded to three decimals. *)
Definition computable_balance (fmt : gmap string string) (b : spec_float) : Prop :=
  exists ad r a rest ref alt q,
    fmt !! "AD" = Some ad
    /\ Py.split "," ad = r :: a :: rest
    /\ Py.int r = Ok ref
    /\ Py.int a = Ok alt
    /\ ref + alt <> 0
    /\ Float.truediv alt (ref + alt) = Ok q
    /\ b = Float.round3 q.


(** What a field of the [INFO] column stands for: nothing when it is empty,
    the key before its first [=] and the value after it, or a flag that
    reads [True]. *)
Definition field_entry (field : string) : option (string * string) :=
  match field with
  | EmptyString => None
  | _ =>
      match Py.split_once "=" field with
      | Some kv => Some kv
      | None => Some (field, "True")
      end
  end.

(** The text [key=value]. *)
Definition key_value (kv : string * string) : string :=
  kv.1 +:+ String "=" kv.2.

(** A text in which a character does not occur. *)
Definition lacks (c : ascii) (s : string) : bool :=
  Py.all_chars (fun x => negb (Ascii.eqb x c)) s.

(** A text without blanks. *)
Definition blank_free (s : string) : bool :=
  Py.all_chars (fun c => negb (Py.isspace c)) s.

(** The last character of a text, when there is one, is not a blank. *)
Fixpoint ends_well (s : string) : bool :=
  match s with
  | EmptyString => true
  | String c EmptyString => negb (Py.isspace c)
  | String _ s' => ends_well s'
  end.

(** The rows a record gives: one for each alternate allele when every rule
    keeps the record, none when a rule drops it. *)
Definition rows_of (cfg : Triage.FilterConfig) (rec : Triage.VariantRecord)
  : list Triage.TriageRow :=
  match Triage.keep_record cfg rec with
  | Ok (Triage.Kept t) => map (Triage.with_alt t) (Triage.ALT rec)
  | _ => []
  end.

(** The records whose turn of the loop ends without an exception: the ones
    before the first that makes the reader or a rule raise. *)
Fixpoint completed (cfg : Triage.FilterConfig) (recs : list (result Triage.VariantRecord))
  : list Triage.VariantRecord :=
  match recs with
  | Ok rec :: recs' =>
      match Triage.keep_record cfg rec with
      | Ok _ => rec :: completed cfg recs'
      | Raise _ => []
      end
  | _ => []
  end.

(** How many rows carry a consequence term. *)
Definition occurrences (c : string) (rows : list Triage.TriageRow) : Z :=
  Z.of_nat (length (filter (fun r => Triage.row_consequence r = c) rows)).

(** The order of the summary: the larger count first, and for equal counts
    the term that compares less first. *)
Definition before (x y : string * Z) : Prop :=
  y.2 < x.2 \/ (x.2 = y.2 /\ String.ltb x.1 y.1 = true).

(** What the loop keeps true of its state. *)
Definition counted (st : Triage.state) : Prop :=
  NoDup (Triage.by_consequence st).*1
  /\ Forall (fun kv => 0 < kv.2) (Triage.by_consequence st)
  /\ forall c, Triage.dict_get (Triage.by_consequence st) c 0
               = if Py.truthy c then occurrences c (Triage.rows st) else 0.

(** A text that holds none of the characters [sanitize_filename] replaces. *)
Definition safe (s : string) : bool :=
  Py.all_chars (fun ch => negb (bool_decide (Py.code ch ∈ Igv.bad))) s.

(** The chromosome and the position text of a row of the table, as the
    generator reads them. *)
Definition chrom_of (r : gmap string string) : string :=
  Py.strip (Igv.get_or r ["chrom"; "CHROM"]).

Definition pos_of (r : gmap string string) : string :=
  Py.strip (Igv.get_or r ["pos"; "POS"]).

(** A row the generator does not pass over. *)
Definition usable (r : gmap string string) : bool :=
  Py.truthy (chrom_of r) && Py.isdigit (pos_of r).

(** The commands a row adds to the script. *)
Definition lines_of (o : Igv.options) (r : gmap string string) : list string :=
  match Igv.row_lines o r with
  | Ok (Some ls) => ls
  | _ => []
  end.

(** The alignment file of a row, when a column names one. *)
Definition row_bam (o : Igv.options) (r : gmap string string) : string :=
  Py.strip (Igv.get_or r [default "" (Igv.bam_col o)]).

Definition is_snapshot (l : string) : bool := Py.startswith "snapshot " l.

(** The position of a usable row, and the navigation command of the row. *)
Definition position (r : gmap string string) : Z := try_except (Py.int (pos_of r)) 0.

Definition goto_of (o : Igv.options) (r : gmap string string) : string :=
  Igv.goto_line (chrom_of r) (Z.max 1 (position r - Igv.flank o))
    (position r + Igv.flank o).

(** A row for which a per-row alignment file is loaded. *)
Definition loads (o : Igv.options) (r : gmap string string) : bool :=
  usable r && Igv.given (Igv.bam_col o) && Py.truthy (row_bam o r).


(** A snapshot command with a file name of at most 80 safe characters. *)
Definition snapshot_command (l : string) : Prop :=
  exists name, l = "snapshot " +:+ name +:+ ".png"
               /\ (String.length name <= 80)%nat /\ safe name = true.



End Spec.

(** ** Sample inputs *)

Module Sample.

(** A data line whose frequency is not a number. *)
Definition af_garbage : string := "1 100 . A T 50 PASS AF=abc GT:DP 0/1:20".

(** A record with a frequency of one half, and one without frequency. *)
Definition rec_af (af : option string) : Triage.VariantRecord :=
  {| Triage.CHROM := "1"; Triage.POS := 100; Triage.REF := "A";
     Triage.ALT := ["T"]; Triage.QUAL := Some (Float.of_ratio false 50 1);
     Triage.FILTER := "PASS";
     Triage.INFO := match af with Some v => {[ "AF" := v ]} | None => ∅ end;
     Triage.FORMAT := {[ "DP" := "20" ]} |}.

(** A record of the given quality. *)
Definition rec_qual (q : option spec_float) : Triage.VariantRecord :=
  {| Triage.CHROM := "1"; Triage.POS := 100; Triage.REF := "A";
     Triage.ALT := ["T"]; Triage.QUAL := q; Triage.FILTER := "PASS";
     Triage.INFO := ∅; Triage.FORMAT := {[ "DP" := "20" ]} |}.

(** A heterozygous record of depth 20 with the given allele depths. *)
Definition rec_ad (ad : string) : Triage.VariantRecord :=
  {| Triage.CHROM := "1"; Triage.POS := 100; Triage.REF := "A";
     Triage.ALT := ["T"]; Triage.QUAL := Some (Float.of_ratio false 50 1);
     Triage.FILTER := "PASS"; Triage.INFO := ∅;
     Triage.FORMAT := <[ "AD" := ad ]> (<[ "DP" := "20" ]> {[ "GT" := "0/1" ]}) |}.

(** The options of the first test of the generator, without snapshots: one
    alignment file for all loci, a flank of 50. *)
Definition single_bam : Igv.options :=
  {| Igv.genome := "GRCh38"; Igv.bam := Some "/x/sample.bam";
     Igv.bam_col := None; Igv.flank := 50; Igv.snapshot_dir := None;
     Igv.snapshot_prefix := None |}.

(** A table with one locus, and a table with a header only. *)
Definition one_locus : list (list string) :=
  [["chrom"; "pos"; "gene"; "consequence"]; ["1"; "1000"; "GENE1"; "missense_variant"]].

Definition no_locus : list (list string) := [["chrom"; "pos"; "gene"; "consequence"]].

Definition locus_row : gmap string string :=
  Igv.dict_row ["chrom"; "pos"; "gene"; "consequence"]
    ["1"; "1000"; "GENE1"; "missense_variant"].

(** A record with the given per-sample depth and annotation. *)
Definition rec_dp_ann (dp : option string) (ann : option string) : Triage.VariantRecord :=
  {| Triage.CHROM := "1"; Triage.POS := 100; Triage.REF := "A";
     Triage.ALT := ["T"; "G"]; Triage.QUAL := Some (Float.of_ratio false 50 1);
     Triage.FILTER := "PASS";
     Triage.INFO := match ann with Some v => {[ "ANN" := v ]} | None => ∅ end;
     Triage.FORMAT := match dp with Some v => {[ "DP" := v ]} | None => ∅ end |}.

(** The defaults with an allowlist. *)
Definition config_genes (gs : gset string) : Triage.FilterConfig :=
  {| Triage.min_dp := 10; Triage.min_qual := Float.of_ratio false 30 1;
     Triage.max_af := Float.of_ratio false 1 100; Triage.include_nonpass := false;
     Triage.genes_set := Some gs; Triage.summary_path := None |}.

(** A record of depth 20 annotated with GENE1, and the defaults with an
    allowlist that holds GENE2 only. *)
Definition rec_gene1 : Triage.VariantRecord :=
  rec_dp_ann (Some "20") (Some "T|missense_variant|MODERATE|GENE1").

Definition only_gene2 : Triage.FilterConfig := config_genes {[ "GENE2" ]}.

(** A data line of the first test: depth 20, quality 50, PASS. *)
Definition good_line : string :=
  "1 1000 . A T,G 50 PASS AF=0.001;ANN=T|missense_variant|MODERATE|GENE1 GT:DP 0/1:20".

(** A data line that fails the quality rule, and a line of two tokens. *)
Definition low_qual_line : string := "1 2000 . A T 20 PASS AF=0.001 GT:DP 0/1:20".
Definition short_line : string := "1 3000".

(** A data line of eight tokens whose position is not an integer. *)
Definition pos_garbage : string := "1 abc . A T 50 PASS .".

(** The defaults with a summary file. *)
Definition with_summary : Triage.FilterConfig :=
  {| Triage.min_dp := 10; Triage.min_qual := Float.of_ratio false 30 1;
     Triage.max_af := Float.of_ratio false 1 100; Triage.include_nonpass := false;
     Triage.genes_set := None; Triage.summary_path := Some "summary.txt" |}.

(** A small file: two header lines, a record with two alternate alleles, a
    record of low quality, a record at a negative position, two more
    records, and a line of two tokens. *)
Definition small_vcf : list string :=
  map (fun l => l +:+ nl)
    ["##fileformat=VCFv4.2";
     "#CHROM POS ID REF ALT QUAL FILTER INFO FORMAT S1";
     "1 1000 . A T,G 50 PASS AF=0.001;ANN=T|missense_variant|MODERATE|GENE1 GT:DP 0/1:20";
     "1 2000 . A T 20 PASS AF=0.001 GT:DP 0/1:20";
     "2 -5 . C G 60 PASS ANN=G|stop_gained|HIGH|GENE2 GT:DP 0/1:30";
     "3 7 . C G 60 PASS ANN=G|stop_gained|HIGH|GENE2 GT:DP 0/1:30";
     "4 9 . C G 60 PASS ANN=G|frameshift_variant|HIGH|GENE2 GT:DP 0/1:30";
     "1 3000"].

(** Options with an alignment file per row and snapshots, and options whose
    snapshot directory is the empty text. *)
Definition per_row : Igv.options :=
  {| Igv.genome := "GRCh38"; Igv.bam := None; Igv.bam_col := Some "bam";
     Igv.flank := 50; Igv.snapshot_dir := Some "shots";
     Igv.snapshot_prefix := Some "run" |}.

Definition no_directory : Igv.options :=
  {| Igv.genome := "GRCh38"; Igv.bam := Some "/x/s.bam"; Igv.bam_col := None;
     Igv.flank := 50; Igv.snapshot_dir := Some ""; Igv.snapshot_prefix := None |}.

(** A table of four rows, the second with a position that is not a number. *)
Definition loci_table : list (list string) :=
  [["chrom"; "pos"; "gene"; "consequence"; "bam"];
   ["1"; "1000"; "GENE1"; "missense_variant&splice_region_variant"; "/x/a.bam"];
   ["X"; "abc"; "GENE2"; "stop_gained"; ""];
   ["2"; "5"; ""; ""; ""];
   ["3"; "70"; "G 3"; "a/b:c"; ""]].

(** A table with two columns of the same name and a row too short for the
    second. *)
Definition short_row_table : list (list string) :=
  [["chrom"; "pos"; "pos"]; ["1"; "5"]].

(** A table whose only position is the superscript two. *)
Definition superscript_table : list (list string) :=
  [["chrom"; "pos"]; ["1"; String (ascii_of_N 178) EmptyString]].

End Sample.

(** * Properties *)

(** ** Floats *)

Section FloatFacts.

Lemma ltb_zero_sign (s : bool) (y : spec_float) :
  Float.ltb (S754_zero s) y = Float.ltb Float.zero y.
Proof. by destruct y. Qed.

Lemma ltb_qual_or_zero (q : option spec_float) (m : spec_float) :
  Float.ltb (Triage.qual_or_zero q) m = Float.ltb (default Float.zero q) m.
Proof.
  destruct q as [x|]; [|done]. simpl.
  by destruct x.
Qed.

Lemma eqb_not_ltb (x y : spec_float) : SFeqb x y = true -> Float.ltb x y = false.
Proof.
  unfold SFeqb, Float.ltb, SFltb. by destruct (SFcompare x y) as [[]|].
Qed.

(** The order of two floats does not depend on which one is asked first. *)
Lemma SFcompare_antisym (x y : spec_float) :
  SFcompare y x = CompOpp <$> SFcompare x y.
Proof.
  destruct x as [sx|sx| |sx mx ex], y as [sy|sy| |sy my ey]; simpl; try done;
    try (by destruct sx); try (by destruct sy); try (by destruct sx, sy).
  destruct sx, sy; simpl; try done.
  all: rewrite (Z.compare_antisym ex ey); destruct (ex ?= ey); simpl; try done.
  all: by rewrite (ZC4 my mx).
Qed.

Lemma SFcompare_not_nan (x y : spec_float) :
  x <> S754_nan -> y <> S754_nan -> is_Some (SFcompare x y).
Proof. destruct x, y; simpl; try done; by eexists. Qed.

Lemma leb_negb_ltb (x y : spec_float) :
  x <> S754_nan -> y <> S754_nan -> Float.leb x y = negb (Float.ltb y x).
Proof.
  intros Hx Hy. unfold Float.leb, Float.ltb, SFleb, SFltb.
  rewrite (SFcompare_antisym x y).
  destruct (SFcompare_not_nan x y Hx Hy) as [c ->]. by destruct c.
Qed.

(** Rounding a mantissa that is not negative never makes a NaN. *)
Lemma iter_pos_invariant {A : Type} (P : A -> Prop) (f : A -> A) (p : positive) (x : A) :
  (forall a, P a -> P (f a)) -> P x -> P (SpecFloat.iter_pos f p x).
Proof.
  intros Hf. revert x. induction p as [p IH|p IH|]; intros x Hx; simpl; auto.
Qed.

Lemma shr_1_nonneg (mrs : shr_record) : 0 <= shr_m mrs -> 0 <= shr_m (shr_1 mrs).
Proof. destruct mrs as [[|[p|p|]|[p|p|]] r s]; simpl; lia. Qed.

Lemma shr_fexp_nonneg (m e : Z) (l : location) :
  0 <= m -> 0 <= shr_m (shr_fexp Float.prec Float.emax m e l).1.
Proof.
  intros Hm. unfold shr_fexp, shr.
  assert (0 <= shr_m (shr_record_of_loc m l)) as H0 by (by destruct l as [|[]]).
  destruct (_ - e) as [|p|p]; simpl; try done.
  by apply (iter_pos_invariant (fun mrs => 0 <= shr_m mrs)), H0; apply shr_1_nonneg.
Qed.

Lemma round_nearest_even_nonneg (m : Z) (l : location) :
  0 <= m -> 0 <= round_nearest_even m l.
Proof. intros Hm. destruct l as [|[]]; simpl; try done; [case_match|]; lia. Qed.

Lemma binary_round_aux_not_nan (s : bool) (m e : Z) (l : location) :
  0 <= m -> binary_round_aux Float.prec Float.emax s m e l <> S754_nan.
Proof.
  intros Hm. unfold binary_round_aux.
  pose proof (shr_fexp_nonneg m e l Hm) as H1.
  destruct (shr_fexp Float.prec Float.emax m e l) as [mrs' e'].
  pose proof (shr_fexp_nonneg _ e' loc_Exact
                (round_nearest_even_nonneg _ (loc_of_shr_record mrs') H1)) as H2.
  destruct (shr_fexp Float.prec Float.emax _ e' loc_Exact) as [mrs'' e''].
  simpl in H2. destruct (shr_m mrs''); [done| |lia]. by case_match.
Qed.

Lemma of_ratio_not_nan (neg : bool) (n d : Z) :
  0 < d -> Float.of_ratio neg n d <> S754_nan.
Proof.
  intros Hd. unfold Float.of_ratio. destruct n as [|p|p]; try done.
  unfold SFdiv_core_binary.
  set (m' := match _ - _ with Z0 => _ | Zpos _ => _ | Zneg _ => _ end).
  assert (0 <= m') as Hm'.
  { subst m'. destruct (_ - _); try lia. apply Z.shiftl_nonneg. lia. }
  pose proof (Z.div_pos m' d Hm' Hd) as Hq. unfold Z.div in Hq.
  destruct (Z.div_eucl m' d) as [q r]. by apply binary_round_aux_not_nan.
Qed.

Lemma div_half_even_nonneg (n d : Z) : 0 <= n -> 0 < d -> 0 <= Float.div_half_even n d.
Proof.
  intros Hn Hd. unfold Float.div_half_even.
  pose proof (Z.div_pos n d Hn Hd). repeat case_match; lia.
Qed.

Lemma round3_not_nan (x : spec_float) : x <> S754_nan -> Float.round3 x <> S754_nan.
Proof. destruct x; simpl; try done. intros _. by apply of_ratio_not_nan. Qed.

Lemma truediv_not_nan (a b : Z) (q : spec_float) :
  Float.truediv a b = Ok q -> q <> S754_nan.
Proof.
  unfold Float.truediv. destruct (b =? 0) eqn:Hb; [done|].
  apply Z.eqb_neq in Hb.
  pose proof (of_ratio_not_nan (xorb (a <? 0) (b <? 0)) (Z.abs a) (Z.abs b)) as H.
  destruct (Float.of_ratio _ _ _); intros [= <-]; try done.
  apply H. lia.
Qed.

(** A float that compares equal to a finite non-zero float is that float. *)
Lemma SFeqb_finite (x : spec_float) (s : bool) (m : positive) (e : Z) :
  SFeqb x (S754_finite s m e) = true -> x = S754_finite s m e.
Proof.
  unfold SFeqb. destruct x as [sx|sx| |sx mx ex]; simpl; try done;
    try (by destruct s); try (by destruct sx).
  destruct sx, s; simpl; try done.
  all: destruct (ex ?= e) eqn:He; try done; apply Z.compare_eq in He as ->.
  all: destruct (Pos.compare_cont Eq mx m) eqn:Hm; try done.
  all: by apply Pos.compare_eq in Hm as ->.
Qed.

Lemma lit_0_3_value : Float.lit_0_3 = S754_finite false 5404319552844595 (-54).
Proof. by vm_compute. Qed.

Lemma lit_0_7_value : Float.lit_0_7 = S754_finite false 6305039478318694 (-53).
Proof. by vm_compute. Qed.

(** The two bounds themselves are inside the interval. *)
Lemma bounds_inside (b : spec_float) :
  SFeqb b Float.lit_0_3 = true \/ SFeqb b Float.lit_0_7 = true ->
  Float.leb Float.lit_0_3 b && Float.leb b Float.lit_0_7 = true.
Proof.
  rewrite lit_0_3_value, lit_0_7_value.
  by intros [->%SFeqb_finite | ->%SFeqb_finite]; vm_compute.
Qed.

End FloatFacts.

(** ** The filter chain *)

Section Chain.

Variable cfg : Triage.FilterConfig.
Variable rec : Triage.VariantRecord.

(** Unfolds the loop body and splits on every test it makes. *)
Ltac chain :=
  unfold Triage.keep_record, mbind, result_bind;
  repeat (case_match; simplify_eq; try done).

Lemma keep_record_nonpass :
  Triage.keep_record cfg rec = Ok (Triage.Dropped Triage.NonPass)
  <-> Triage.drop_nonpass cfg (Triage.FILTER rec) = true.
Proof. split; [chain | intros H; unfold Triage.keep_record; by rewrite H]. Qed.

Lemma keep_record_quality :
  Triage.drop_nonpass cfg (Triage.FILTER rec) = false ->
  Triage.keep_record cfg rec = Ok (Triage.Dropped Triage.Quality)
  <-> Triage.drop_qual cfg (Triage.qual_or_zero (Triage.QUAL rec)) = true.
Proof.
  intros Hn. split; [chain | intros H; unfold Triage.keep_record; by rewrite Hn, H].
Qed.

Lemma keep_record_frequency (af : option spec_float) :
  Triage.drop_nonpass cfg (Triage.FILTER rec) = false ->
  Triage.drop_qual cfg (Triage.qual_or_zero (Triage.QUAL rec)) = false ->
  Triage.parse_af (Triage.INFO rec) = Ok af ->
  Triage.keep_record cfg rec = Ok (Triage.Dropped Triage.Frequency)
  <-> Triage.drop_af cfg af = true.
Proof.
  intros Hn Hq Ha. split.
  - unfold Triage.keep_record. rewrite Hn, Hq, Ha. simpl.
    destruct (Triage.drop_af cfg af); [done|].
    unfold mbind, result_bind. repeat (case_match; simplify_eq; try done).
  - intros H. unfold Triage.keep_record. rewrite Hn, Hq, Ha. simpl. by rewrite H.
Qed.

Lemma keep_record_frequency_raise (e : exn) :
  Triage.drop_nonpass cfg (Triage.FILTER rec) = false ->
  Triage.drop_qual cfg (Triage.qual_or_zero (Triage.QUAL rec)) = false ->
  Triage.parse_af (Triage.INFO rec) = Raise e ->
  Triage.keep_record cfg rec = Raise e.
Proof. intros Hn Hq Ha. unfold Triage.keep_record. by rewrite Hn, Hq, Ha. Qed.

Lemma keep_record_allele_balance (af : option spec_float) (dp : Z) :
  Triage.drop_nonpass cfg (Triage.FILTER rec) = false ->
  Triage.drop_qual cfg (Triage.qual_or_zero (Triage.QUAL rec)) = false ->
  Triage.parse_af (Triage.INFO rec) = Ok af ->
  Triage.drop_af cfg af = false ->
  Triage.parse_dp (Triage.FORMAT rec) = Ok dp ->
  Triage.drop_dp cfg dp = false ->
  Triage.keep_record cfg rec = Ok (Triage.Dropped Triage.AlleleBalance)
  <-> Triage.drop_ab (default "" (Triage.FORMAT rec !! "GT"))
        (Triage.allele_balance (Triage.FORMAT rec)) = true.
Proof.
  intros Hn Hq Ha Hf Hd Hp.
  unfold Triage.keep_record. rewrite Hn, Hq, Ha. simpl. rewrite Hf, Hd. simpl.
  rewrite Hp. destruct (Triage.drop_ab _ _); [done|]. split; [|done].
  unfold mbind, result_bind. repeat (case_match; simplify_eq; try done).
Qed.

Lemma keep_record_depth (af : option spec_float) (dp : Z) :
  Triage.drop_nonpass cfg (Triage.FILTER rec) = false ->
  Triage.drop_qual cfg (Triage.qual_or_zero (Triage.QUAL rec)) = false ->
  Triage.parse_af (Triage.INFO rec) = Ok af ->
  Triage.drop_af cfg af = false ->
  Triage.parse_dp (Triage.FORMAT rec) = Ok dp ->
  Triage.keep_record cfg rec = Ok (Triage.Dropped Triage.Depth)
  <-> Triage.drop_dp cfg dp = true.
Proof.
  intros Hn Hq Ha Hf Hd.
  unfold Triage.keep_record. rewrite Hn, Hq, Ha. simpl. rewrite Hf, Hd. simpl.
  destruct (Triage.drop_dp cfg dp); [done|]. split; [|done].
  unfold mbind, result_bind. repeat (case_match; simplify_eq; try done).
Qed.

Lemma keep_record_depth_raise (af : option spec_float) (e : exn) :
  Triage.drop_nonpass cfg (Triage.FILTER rec) = false ->
  Triage.drop_qual cfg (Triage.qual_or_zero (Triage.QUAL rec)) = false ->
  Triage.parse_af (Triage.INFO rec) = Ok af ->
  Triage.drop_af cfg af = false ->
  Triage.parse_dp (Triage.FORMAT rec) = Raise e ->
  Triage.keep_record cfg rec = Raise e.
Proof.
  intros Hn Hq Ha Hf Hd. unfold Triage.keep_record.
  rewrite Hn, Hq, Ha. simpl. by rewrite Hf, Hd.
Qed.

(** The loop body from the gene rule on, for a record that passed the five
    rules before it. *)
Lemma keep_record_gene (af : option spec_float) (dp : Z)
  (gene consequence hgvsc hgvsp : string) :
  Triage.drop_nonpass cfg (Triage.FILTER rec) = false ->
  Triage.drop_qual cfg (Triage.qual_or_zero (Triage.QUAL rec)) = false ->
  Triage.parse_af (Triage.INFO rec) = Ok af ->
  Triage.drop_af cfg af = false ->
  Triage.parse_dp (Triage.FORMAT rec) = Ok dp ->
  Triage.drop_dp cfg dp = false ->
  Triage.drop_ab (default "" (Triage.FORMAT rec !! "GT"))
    (Triage.allele_balance (Triage.FORMAT rec)) = false ->
  Triage.parse_ann (Triage.INFO rec) = Ok (gene, consequence, hgvsc, hgvsp) ->
  Triage.keep_record cfg rec
  = if Triage.drop_gene cfg gene then Ok (Triage.Dropped Triage.GeneList)
    else Ok (Triage.Kept
               {| Triage.row_chrom := Triage.CHROM rec;
                  Triage.row_pos := Triage.POS rec;
                  Triage.row_ref := Triage.REF rec; Triage.row_alt := "";
                  Triage.row_gene := gene; Triage.row_consequence := consequence;
                  Triage.row_hgvs_c := hgvsc; Triage.row_hgvs_p := hgvsp;
                  Triage.row_af := af;
                  Triage.row_gt := default "" (Triage.FORMAT rec !! "GT");
                  Triage.row_dp := dp;
                  Triage.row_ab := Triage.allele_balance (Triage.FORMAT rec);
                  Triage.row_filters := Triage.FILTER rec |}).
Proof.
  intros Hn Hq Ha Hf Hd Hp Hb Hann. unfold Triage.keep_record.
  rewrite Hn, Hq, Ha. simpl. rewrite Hf, Hd. simpl. by rewrite Hp, Hb, Hann.
Qed.

End Chain.

(** ** C6: the quality rule *)

(** C6. A record that passes the non-PASS rule is dropped by the quality rule
    exactly when its quality, an absent one counting as zero, is strictly
    less than the configured minimum; a quality equal to the minimum is not
    dropped by the rule; and the reader turns the missing-value sentinel
    into an absent quality. *)
Theorem quality_rule (cfg : Triage.FilterConfig) (rec : Triage.VariantRecord) :
  Triage.drop_nonpass cfg (Triage.FILTER rec) = false ->
  (Triage.keep_record cfg rec = Ok (Triage.Dropped Triage.Quality)
   <-> Float.ltb (default Float.zero (Triage.QUAL rec)) (Triage.min_qual cfg) = true)
  /\ (SFeqb (default Float.zero (Triage.QUAL rec)) (Triage.min_qual cfg) = true ->
      Triage.keep_record cfg rec <> Ok (Triage.Dropped Triage.Quality))
  /\ Triage.parse_qual "." = Ok None.
Proof.
  intros Hn. split_and!; [| |done].
  - rewrite keep_record_quality by done.
    unfold Triage.drop_qual. by rewrite ltb_qual_or_zero.
  - intros He%eqb_not_ltb. rewrite keep_record_quality by done.
    unfold Triage.drop_qual. rewrite ltb_qual_or_zero. congruence.
Qed.

Lemma quality_rule_witness :
  Triage.drop_nonpass Triage.default_config
    (Triage.FILTER (Sample.rec_qual (Some (Float.of_ratio false 30 1)))) = false
  /\ Triage.keep_record Triage.default_config
       (Sample.rec_qual (Some (Float.of_ratio false 30 1)))
     <> Ok (Triage.Dropped Triage.Quality).
Proof.
  split; [reflexivity|].
  apply (quality_rule Triage.default_config
           (Sample.rec_qual (Some (Float.of_ratio false 30 1))));
    reflexivity.
Defined.

Example quality_absent_dropped :
  Triage.keep_record Triage.default_config (Sample.rec_qual None)
  = Ok (Triage.Dropped Triage.Quality).
Proof. reflexivity. Qed.

Example quality_just_below_dropped :
  (q ← Float.of_str "29.999999999999996";
   Triage.keep_record Triage.default_config (Sample.rec_qual (Some q)))
  = Ok (Triage.Dropped Triage.Quality).
Proof. vm_compute. reflexivity. Qed.

(** ** The record reader *)

Lemma read_line_yield (line : string) (rec : Triage.VariantRecord) :
  Triage.read_line line = Ok (Some rec) ->
  exists chrom pos id ref alt qual flt info,
    take 8 (Triage.tokens line) = [chrom; pos; id; ref; alt; qual; flt; info]
    /\ Py.truthy (Py.strip line) = true
    /\ Triage.CHROM rec = chrom
    /\ Py.int pos = Ok (Triage.POS rec)
    /\ Triage.REF rec = ref
    /\ Triage.ALT rec = Py.split "," alt
    /\ Triage.parse_qual qual = Ok (Triage.QUAL rec)
    /\ Triage.FILTER rec = (if bool_decide (flt = ".") then "PASS" else flt)
    /\ Triage.INFO rec = Triage.parse_info info.
Proof.
  unfold Triage.read_line, mbind, result_bind.
  repeat (case_match; simplify_eq; try done).
  all: intros [= <-]; simpl; do 8 eexists; split_and!; try done.
  all: try by destruct (Py.truthy (Py.strip line)).
  all: by match goal with H : bool_decide _ = _ |- _ => rewrite H end.
Qed.

Lemma simple_vcf_iter_raise (before after : list string) (line : string) (e : exn) :
  Triage.read_line line = Raise e ->
  exists pre e', Triage.simple_vcf_iter (before ++ line :: after) = pre ++ [Raise e'].
Proof.
  intros Hr. induction before as [|l before IH]; simpl.
  - rewrite Hr. by exists [], e.
  - destruct IH as (pre & e' & ->).
    destruct (Triage.read_line l) as [[r|]|e0].
    + by exists (Ok r :: pre), e'.
    + by exists pre, e'.
    + by exists [], e0.
Qed.

Lemma triage_loop_raise (cfg : Triage.FilterConfig)
  (pre : list (result Triage.VariantRecord)) (e : exn) (st : Triage.state) :
  (Triage.triage_loop cfg st (pre ++ [Raise e])).2 <> None.
Proof.
  revert st. induction pre as [|[r|e0] pre IH]; intros st; simpl; try done.
  by destruct (Triage.triage_record cfg st r).
Qed.

Lemma triage_raised (cfg : Triage.FilterConfig) (lines : list string) :
  Triage.raised (Triage.triage cfg lines)
  = (Triage.triage_loop cfg Triage.init (Triage.simple_vcf_iter lines)).2.
Proof. unfold Triage.triage. by destruct (Triage.triage_loop _ _ _). Qed.

Lemma triage_final (cfg : Triage.FilterConfig) (lines : list string) :
  Triage.final (Triage.triage cfg lines)
  = (Triage.triage_loop cfg Triage.init (Triage.simple_vcf_iter lines)).1.
Proof. unfold Triage.triage. by destruct (Triage.triage_loop _ _ _). Qed.

Lemma triage_table (cfg : Triage.FilterConfig) (lines : list string) :
  Triage.table (Triage.triage cfg lines)
  = Triage.cols :: map Triage.csv_row (Triage.rows (Triage.final (Triage.triage cfg lines))).
Proof. unfold Triage.triage. by destruct (Triage.triage_loop _ _ _). Qed.

(** ** C10: a position that is not an integer aborts the run *)

(** C10. There is a data line of at least eight tokens, with a position that
    is not an integer literal, on which the reader raises, so that every run
    over a file that contains the line ends with an exception; and among the
    data lines the reader passes over in silence exactly those of fewer than
    eight tokens. *)
Theorem malformed_position_raises :
  (exists line pos,
      (8 <= length (Triage.tokens line))%nat
      /\ Triage.tokens line !! 1%nat = Some pos
      /\ Py.int pos = Raise ValueError
      /\ Triage.read_line line = Raise ValueError
      /\ forall cfg before after,
           Triage.raised (Triage.triage cfg (before ++ line :: after)) <> None)
  /\ (forall line,
        Py.startswith "##" line = false ->
        Py.startswith "#CHROM" line = false ->
        Py.strip line <> "" ->
        Triage.read_line line = Ok None <-> (length (Triage.tokens line) < 8)%nat).
Proof.
  split.
  - exists Sample.pos_garbage, "abc".
    split; [vm_compute; lia|]. do 3 (split; [by vm_compute|]).
    intros cfg before after. rewrite triage_raised.
    destruct (simple_vcf_iter_raise before after Sample.pos_garbage ValueError)
      as (pre & e' & ->); [done|].
    apply triage_loop_raise.
  - intros line H1 H2 H3. unfold Triage.read_line. rewrite H1, H2.
    destruct (Py.strip line) eqn:Hs; [done|]. simpl.
    destruct (length (Triage.tokens line) <? 8)%nat eqn:Hl.
    + apply Nat.ltb_lt in Hl. done.
    + apply Nat.ltb_ge in Hl. split; [|lia].
      unfold mbind, result_bind. repeat (case_match; simplify_eq; try done).
Qed.

(** ** C1: the frequency rule *)

Lemma triage_loop_record_raise (cfg : Triage.FilterConfig) (st : Triage.state)
  (rec : Triage.VariantRecord) (recs : list (result Triage.VariantRecord)) (e : exn) :
  Triage.keep_record cfg rec = Raise e ->
  Triage.triage_loop cfg st (Ok rec :: recs) = (st, Some e).
Proof. intros H. simpl. unfold Triage.triage_record. by rewrite H. Qed.

(** C1, as the code has it. For a record that reaches the frequency rule:
    an [AF] value that is not empty and does not read as a float makes the
    turn of the loop raise, which ends the run; an [AF] that reads as a float
    drops the record exactly when that float is at least the configured
    maximum; an [AF] that is absent or empty is an absent frequency and does
    not drop the record. *)
Theorem frequency_rule (cfg : Triage.FilterConfig) (rec : Triage.VariantRecord) :
  Triage.drop_nonpass cfg (Triage.FILTER rec) = false ->
  Triage.drop_qual cfg (Triage.qual_or_zero (Triage.QUAL rec)) = false ->
  (forall v e, Triage.INFO rec !! "AF" = Some v -> v <> "" ->
     Float.of_str v = Raise e ->
     Triage.keep_record cfg rec = Raise e
     /\ forall st recs, Triage.triage_loop cfg st (Ok rec :: recs) = (st, Some e))
  /\ (forall v a, Triage.INFO rec !! "AF" = Some v -> v <> "" ->
       Float.of_str v = Ok a ->
       Triage.keep_record cfg rec = Ok (Triage.Dropped Triage.Frequency)
       <-> Float.geb a (Triage.max_af cfg) = true)
  /\ (Triage.INFO rec !! "AF" = None \/ Triage.INFO rec !! "AF" = Some "" ->
      Triage.parse_af (Triage.INFO rec) = Ok None
      /\ Triage.keep_record cfg rec <> Ok (Triage.Dropped Triage.Frequency)).
Proof.
  intros Hn Hq. split_and!.
  - intros v e Hv Hne He.
    assert (Triage.keep_record cfg rec = Raise e) as Hk.
    { apply keep_record_frequency_raise; try done.
      unfold Triage.parse_af. rewrite Hv, bool_decide_eq_false_2 by done.
      by rewrite He. }
    split; [done|]. intros st recs. by apply triage_loop_record_raise.
  - intros v a Hv Hne Ha.
    rewrite (keep_record_frequency cfg rec (Some a)); try done.
    unfold Triage.parse_af. rewrite Hv, bool_decide_eq_false_2 by done.
    by rewrite Ha.
  - intros Hv.
    assert (Triage.parse_af (Triage.INFO rec) = Ok None) as Hp.
    { unfold Triage.parse_af. by destruct Hv as [-> | ->]. }
    split; [done|]. by rewrite (keep_record_frequency cfg rec None).
Qed.

Lemma frequency_rule_witness :
  Triage.drop_nonpass Triage.default_config
    (Triage.FILTER (Sample.rec_af (Some "0.5"))) = false
  /\ Triage.drop_qual Triage.default_config
       (Triage.qual_or_zero (Triage.QUAL (Sample.rec_af (Some "0.5")))) = false
  /\ Triage.keep_record Triage.default_config (Sample.rec_af (Some "0.5"))
     = Ok (Triage.Dropped Triage.Frequency).
Proof.
  split; [reflexivity|]. split; [reflexivity|].
  apply (proj1 (proj2 (frequency_rule Triage.default_config
                         (Sample.rec_af (Some "0.5")) eq_refl eq_refl))
           "0.5" (Float.of_ratio false 1 2));
    [reflexivity | discriminate | reflexivity | reflexivity].
Defined.

(** C1, as stated, fails: the line [1 100 . A T 50 PASS AF=abc GT:DP 0/1:20]
    yields a record whose frequency does not read as a float, and the run
    ends with [ValueError] instead of taking the frequency as absent. *)
Lemma unparsable_frequency_fails :
  (exists rec, Triage.read_line Sample.af_garbage = Ok (Some rec)
               /\ Triage.INFO rec !! "AF" = Some "abc")
  /\ Float.of_str "abc" = Raise ValueError
  /\ Triage.raised (Triage.triage Triage.default_config [Sample.af_garbage])
     = Some ValueError.
Proof.
  split; [|split; by vm_compute].
  eexists. split; [by vm_compute|]. by vm_compute.
Qed.

(** ** C8: the annotation extractor *)

Lemma split_nonempty (sep : ascii) (s : string) : Py.split sep s <> [].
Proof. induction s as [|c s IH]; simpl; [done|]. by repeat case_match. Qed.

Lemma split_first (sep : ascii) (s : string) :
  index (Py.split sep s) 0 = Ok (Spec.first_entry sep s).
Proof.
  induction s as [|c s IH]; simpl; [done|].
  destruct (Ascii.eqb c sep); [done|].
  destruct (Py.split sep s) as [|h t] eqn:Hs; [by apply split_nonempty in Hs|].
  unfold index in *. simpl in *. by simplify_eq.
Qed.

Lemma item_or_empty_subfield (parts : list string) (i : nat) :
  item_or_empty parts i = Ok (Spec.subfield parts i).
Proof.
  unfold item_or_empty, index, Spec.subfield.
  destruct (i <? length parts)%nat eqn:Hi.
  - apply Nat.ltb_lt, lookup_lt_is_Some in Hi. by destruct Hi as [x ->].
  - apply Nat.ltb_ge, lookup_ge_None in Hi. by rewrite Hi.
Qed.

(** C8. Without the [ANN] key the extractor returns four empty strings; with
    it, it splits the first comma-separated entry of the value on the bar
    and returns the sub-fields 3, 1, 9 and 10, an index out of range giving
    the empty string; and it never raises. *)
Theorem parse_ann_fields (info : gmap string string) :
  (info !! "ANN" = None -> Triage.parse_ann info = Ok ("", "", "", ""))
  /\ (forall v, info !! "ANN" = Some v ->
       let parts := Py.split "|" (Spec.first_entry "," v) in
       Triage.parse_ann info
       = Ok (Spec.subfield parts 3, Spec.subfield parts 1,
             Spec.subfield parts 9, Spec.subfield parts 10))
  /\ (forall parts i, (length parts <= i)%nat -> Spec.subfield parts i = "")
  /\ (exists t, Triage.parse_ann info = Ok t).
Proof.
  assert (forall v, info !! "ANN" = Some v ->
            Triage.parse_ann info
            = Ok (Spec.subfield (Py.split "|" (Spec.first_entry "," v)) 3,
                  Spec.subfield (Py.split "|" (Spec.first_entry "," v)) 1,
                  Spec.subfield (Py.split "|" (Spec.first_entry "," v)) 9,
                  Spec.subfield (Py.split "|" (Spec.first_entry "," v)) 10)) as Hv.
  { intros v H. unfold Triage.parse_ann. rewrite H. simpl.
    destruct v as [|c v]; [done|]. simpl negb. cbv iota.
    rewrite split_first. unfold mbind, result_bind.
    by rewrite !item_or_empty_subfield. }
  split_and!.
  - intros H. unfold Triage.parse_ann. by rewrite H.
  - done.
  - intros parts i Hi. unfold Spec.subfield.
    by rewrite (proj2 (lookup_ge_None parts i)).
  - destruct (info !! "ANN") as [v|] eqn:H.
    + eexists. by apply Hv.
    + eexists. unfold Triage.parse_ann. by rewrite H.
Qed.

Example parse_ann_short :
  Triage.parse_ann {[ "ANN" := "T|missense_variant|MODERATE|GENE1,T|x|y|G2" ]}
  = Ok ("GENE1", "missense_variant", "", "").
Proof. by vm_compute. Qed.

(** ** C4: the allele-balance rule *)

Lemma allele_balance_computable (fmt : gmap string string) (b : spec_float) :
  Triage.allele_balance fmt = Some b <-> Spec.computable_balance fmt b.
Proof.
  unfold Triage.allele_balance, Spec.computable_balance. split.
  - destruct (fmt !! "AD") as [ad|]; [|done].
    destruct (Py.truthy ad); [|done]. simpl.
    unfold Triage.allele_balance_try.
    destruct (Py.split "," ad) as [|r [|a rest]] eqn:Hs; simpl.
    + done.
    + unfold mbind, result_bind. by destruct (Py.int r).
    + unfold mbind, result_bind, mret, result_ret.
      destruct (Py.int r) as [ref|] eqn:Hr; [|done].
      destruct (Py.int a) as [alt|] eqn:Ha; [|done]. simpl.
      destruct (ref + alt =? 0) eqn:Ht; [done|]. apply Z.eqb_neq in Ht.
      destruct (Float.truediv alt (ref + alt)) as [q|] eqn:Hq; [|done].
      intros [= <-]. by exists ad, r, a, rest, ref, alt, q.
  - intros (ad & r & a & rest & ref & alt & q & -> & Hs & Hr & Ha & Ht & Hq & ->).
    assert (Py.truthy ad = true) as -> by (by destruct ad). simpl.
    unfold Triage.allele_balance_try. rewrite Hs. simpl.
    unfold mbind, result_bind, mret, result_ret. rewrite Hr, Ha. simpl.
    apply Z.eqb_neq in Ht. by rewrite Ht, Hq.
Qed.

Lemma allele_balance_not_nan (fmt : gmap string string) (b : spec_float) :
  Triage.allele_balance fmt = Some b -> b <> S754_nan.
Proof.
  intros (ad & r & a & rest & ref & alt & q & _ & _ & _ & _ & _ & Hq & ->)
    %allele_balance_computable.
  by apply round3_not_nan, (truediv_not_nan alt (ref + alt)).
Qed.

Lemma lit_not_nan : Float.lit_0_3 <> S754_nan /\ Float.lit_0_7 <> S754_nan.
Proof. split; by apply of_ratio_not_nan. Qed.

(** C4. A record that reaches the allele-balance rule is dropped by it
    exactly when its genotype is [0/1] or [1/0], its allele balance is
    computable, and the balance is strictly below 0.3 or strictly above 0.7.
    A balance equal to 0.3 or to 0.7 is not dropped, nor is a record whose
    balance is not computable. *)
Theorem allele_balance_rule (cfg : Triage.FilterConfig) (rec : Triage.VariantRecord)
  (af : option spec_float) (dp : Z) :
  Triage.drop_nonpass cfg (Triage.FILTER rec) = false ->
  Triage.drop_qual cfg (Triage.qual_or_zero (Triage.QUAL rec)) = false ->
  Triage.parse_af (Triage.INFO rec) = Ok af ->
  Triage.drop_af cfg af = false ->
  Triage.parse_dp (Triage.FORMAT rec) = Ok dp ->
  Triage.drop_dp cfg dp = false ->
  let gt := default "" (Triage.FORMAT rec !! "GT") in
  (Triage.keep_record cfg rec = Ok (Triage.Dropped Triage.AlleleBalance)
   <-> (gt = "0/1" \/ gt = "1/0")
       /\ exists b, Spec.computable_balance (Triage.FORMAT rec) b
                    /\ (Float.ltb b Float.lit_0_3 = true
                        \/ Float.ltb Float.lit_0_7 b = true))
  /\ (forall b, Spec.computable_balance (Triage.FORMAT rec) b ->
        SFeqb b Float.lit_0_3 = true \/ SFeqb b Float.lit_0_7 = true ->
        Triage.keep_record cfg rec <> Ok (Triage.Dropped Triage.AlleleBalance))
  /\ ((forall b, ~ Spec.computable_balance (Triage.FORMAT rec) b) ->
      Triage.keep_record cfg rec <> Ok (Triage.Dropped Triage.AlleleBalance)).
Proof.
  intros Hn Hq Ha Hf Hd Hp gt.
  pose proof (keep_record_allele_balance cfg rec af dp Hn Hq Ha Hf Hd Hp) as Hk.
  fold gt in Hk. destruct lit_not_nan as [H3 H7].
  assert (Triage.keep_record cfg rec = Ok (Triage.Dropped Triage.AlleleBalance)
          <-> (gt = "0/1" \/ gt = "1/0")
              /\ exists b, Spec.computable_balance (Triage.FORMAT rec) b
                  /\ (Float.ltb b Float.lit_0_3 = true
                      \/ Float.ltb Float.lit_0_7 b = true)) as Hiff.
  { rewrite Hk. unfold Triage.drop_ab.
    rewrite andb_true_iff, bool_decide_eq_true.
    apply and_iff_compat_l. split.
    - destruct (Triage.allele_balance _) as [b|] eqn:Hb; [|done].
      pose proof (allele_balance_not_nan _ _ Hb) as Hnan.
      rewrite (leb_negb_ltb _ b), (leb_negb_ltb b) by done.
      rewrite negb_andb, !negb_involutive, orb_true_iff.
      intros H. exists b. by rewrite <- allele_balance_computable.
    - intros (b & Hb%allele_balance_computable & H). rewrite Hb.
      pose proof (allele_balance_not_nan _ _ Hb) as Hnan.
      rewrite (leb_negb_ltb _ b), (leb_negb_ltb b) by done.
      by rewrite negb_andb, !negb_involutive, orb_true_iff. }
  split_and!; [done| |].
  - intros b Hb%allele_balance_computable He. rewrite Hk.
    unfold Triage.drop_ab. rewrite Hb, (bounds_inside b He). simpl.
    rewrite andb_false_r. done.
  - intros Hnot. rewrite Hiff. intros (_ & b & Hb & _). by apply (Hnot b).
Qed.

Lemma allele_balance_rule_witness :
  Triage.drop_nonpass Triage.default_config
    (Triage.FILTER (Sample.rec_ad "701,299")) = false
  /\ Triage.drop_qual Triage.default_config
       (Triage.qual_or_zero (Triage.QUAL (Sample.rec_ad "701,299"))) = false
  /\ Triage.parse_af (Triage.INFO (Sample.rec_ad "701,299")) = Ok None
  /\ Triage.drop_af Triage.default_config None = false
  /\ Triage.parse_dp (Triage.FORMAT (Sample.rec_ad "701,299")) = Ok 20
  /\ Triage.drop_dp Triage.default_config 20 = false
  /\ exists b, Spec.computable_balance (Triage.FORMAT (Sample.rec_ad "701,299")) b
               /\ (Float.ltb b Float.lit_0_3 = true
                   \/ Float.ltb Float.lit_0_7 b = true).
Proof.
  do 6 (split; [by vm_compute|]).
  apply (proj1 (proj1 (allele_balance_rule Triage.default_config
                         (Sample.rec_ad "701,299") None 20
                         eq_refl eq_refl eq_refl eq_refl eq_refl eq_refl))).
  by vm_compute.
Defined.

Example balance_at_lower_bound_kept :
  Triage.allele_balance (Triage.FORMAT (Sample.rec_ad "7,3")) = Some Float.lit_0_3
  /\ Triage.drop_ab "0/1" (Some Float.lit_0_3) = false.
Proof. by vm_compute. Qed.

Example balance_at_upper_bound_kept :
  Triage.allele_balance (Triage.FORMAT (Sample.rec_ad "3,7")) = Some Float.lit_0_7
  /\ Triage.drop_ab "1/0" (Some Float.lit_0_7) = false.
Proof. by vm_compute. Qed.

Example balance_below_dropped :
  Triage.keep_record Triage.default_config (Sample.rec_ad "1401,599")
  = Ok (Triage.Dropped Triage.AlleleBalance).
Proof. by vm_compute. Qed.

Example balance_not_computable :
  Triage.allele_balance (Triage.FORMAT (Sample.rec_ad "0,0")) = None
  /\ Triage.allele_balance (Triage.FORMAT (Sample.rec_ad "x,3")) = None
  /\ Triage.allele_balance (Triage.FORMAT (Sample.rec_ad "5")) = None.
Proof. by vm_compute. Qed.

(** ** Digits and blanks *)

Section Digits.









End Digits.

(** ** The batch generator *)

Section Batch.

Variable o : Igv.options.

Lemma snapshot_line_ok (r : gmap string string) (chrom : string) (pos : Z) :
  exists l, Igv.snapshot_line o r chrom pos = Ok l
            /\ Igv.is_goto l = false /\ Igv.is_load l = false.
Proof.
  unfold Igv.snapshot_line.
  set (gene := Py.strip (Igv.get_or r ["gene"; "GENE"])).
  set (csq := Py.strip (Igv.get_or r ["consequence"; "Consequences"; "CONSEQUENCE"])).
  destruct (Py.truthy csq); [rewrite split_first|];
    unfold mbind, result_bind; eexists; (split; [reflexivity|done]).
Qed.

Lemma goto_line_kind (chrom : string) (a b : Z) :
  Igv.is_goto (Igv.goto_line chrom a b) = true
  /\ Igv.is_load (Igv.goto_line chrom a b) = false.
Proof. done. Qed.

(** The lines of a usable row: an optional load, the goto, an optional
    snapshot. *)
Lemma row_lines_usable (r : gmap string string) (P : Z) :
  let chrom := Py.strip (Igv.get_or r ["chrom"; "CHROM"]) in
  let pos_str := Py.strip (Igv.get_or r ["pos"; "POS"]) in
  Py.truthy chrom = true ->
  Py.isdigit pos_str = true ->
  Py.int pos_str = Ok P ->
  exists load snap,
    Igv.row_lines o r
    = Ok (Some (load ++ [Igv.goto_line chrom (Z.max 1 (P - Igv.flank o)) (P + Igv.flank o)]
                ++ snap))
    /\ filter Igv.is_goto load = [] /\ filter Igv.is_goto snap = []
    /\ filter Igv.is_load snap = []
    /\ (Igv.given (Igv.bam_col o) = false -> load = []).
Proof.
  intros chrom pos_str Hc Hd Hp. unfold Igv.row_lines.
  fold chrom pos_str. rewrite Hc, Hd, Hp. simpl.
  destruct (snapshot_line_ok r chrom P) as (l & Hl & Hg & Hld).
  set (load := if Igv.given (Igv.bam_col o) then _ else _).
  exists load, (match Igv.snapshot_dir o with Some _ => [l] | None => [] end).
  split_and!.
  - destruct (Igv.snapshot_dir o); [rewrite Hl|]; done.
  - subst load. by repeat case_match.
  - destruct (Igv.snapshot_dir o); [|done]. by rewrite filter_cons, Hg.
  - destruct (Igv.snapshot_dir o); [|done]. by rewrite filter_cons, Hld.
  - intros Hb. subst load. by rewrite Hb.
Qed.

Lemma row_lines_skipped (r : gmap string string) :
  Py.truthy (Py.strip (Igv.get_or r ["chrom"; "CHROM"])) = false
  \/ Py.isdigit (Py.strip (Igv.get_or r ["pos"; "POS"])) = false ->
  Igv.row_lines o r = Ok None.
Proof. unfold Igv.row_lines. by intros [-> | ->]; rewrite ?orb_true_r. Qed.

(** The loop appends to what it is given. *)
Lemma loop_acc (rows : list (gmap string string)) (out : list string) (n : Z) :
  Igv.loop o rows out n
  = '(l, c) ← Igv.loop o rows [] 0; Ok (out ++ l, n + c).
Proof.
  revert out n. induction rows as [|r rows IH]; intros out n; simpl.
  - by rewrite app_nil_r, Z.add_0_r.
  - unfold mbind, result_bind in *. destruct (Igv.row_lines o r) as [[ls|]|]; try done.
    rewrite (IH (out ++ ls)), (IH ls).
    destruct (Igv.loop o rows [] 0) as [[l c]|]; [|done].
    f_equal. f_equal; [by rewrite app_assoc | lia].
Qed.

Lemma loop_cons (r : gmap string string) (rows : list (gmap string string)) :
  Igv.loop o (r :: rows) [] 0
  = ls ← Igv.row_lines o r;
    '(l, c) ← Igv.loop o rows [] 0;
    Ok (default [] ls ++ l, (if ls is Some _ then 1 else 0) + c).
Proof.
  simpl. unfold mbind, result_bind.
  destruct (Igv.row_lines o r) as [[ls|]|]; try done.
  - rewrite loop_acc. unfold mbind, result_bind.
    by destruct (Igv.loop o rows [] 0) as [[l c]|].
  - by destruct (Igv.loop o rows [] 0) as [[l c]|].
Qed.

Lemma loop_member (rows : list (gmap string string)) (r : gmap string string)
  (ls l : list string) (c : Z) :
  Igv.loop o rows [] 0 = Ok (l, c) ->
  r ∈ rows ->
  Igv.row_lines o r = Ok (Some ls) ->
  ls ⊆ l.
Proof.
  revert l c. induction rows as [|r' rows IH]; intros l c Hl Hr Hls.
  - by apply elem_of_nil in Hr.
  - rewrite loop_cons in Hl. unfold mbind, result_bind in Hl.
    destruct (Igv.row_lines o r') as [ls'|] eqn:Hr'; [|done].
    destruct (Igv.loop o rows [] 0) as [[l' c']|] eqn:Hl'; [|done].
    simplify_eq. apply elem_of_cons in Hr as [->|Hr].
    + rewrite Hr' in Hls. simplify_eq. simpl. set_solver.
    + specialize (IH l' c' eq_refl Hr Hls). set_solver.
Qed.

(** The lines that [make_igv_batch] puts in front of the loci when the table
    has rows. *)
Lemma make_igv_batch_rows (records : list (list string)) :
  Igv.dict_reader records <> [] ->
  Igv.make_igv_batch o records
  = '(l, c) ← Igv.loop o (Igv.dict_reader records) [] 0;
    let out_lines :=
      (Igv.header_lines o
       ++ (if Igv.given (Igv.bam o) then ["load " +:+ default "" (Igv.bam o)] else [])
       ++ (if Igv.given (Igv.snapshot_dir o)
           then ["snapshotDirectory " +:+ default "" (Igv.snapshot_dir o)] else []))
      ++ l in
    Ok {| Igv.out_lines := out_lines; Igv.written := Igv.write_text out_lines;
          Igv.count := c |}.
Proof.
  intros Hne. unfold Igv.make_igv_batch.
  destruct (Igv.dict_reader records) as [|r rows] eqn:Hrows; [done|].
  rewrite loop_acc. unfold mbind, result_bind.
  destruct (Igv.loop o (r :: rows) [] 0) as [[l c]|]; [|done].
  simpl. by destruct (Igv.given (Igv.bam o)), (Igv.given (Igv.snapshot_dir o)).
Qed.

Lemma make_igv_batch_empty (records : list (list string)) :
  Igv.dict_reader records = [] ->
  Igv.make_igv_batch o records
  = Ok {| Igv.out_lines := Igv.header_lines o;
          Igv.written := Igv.write_text (Igv.header_lines o); Igv.count := 0 |}.
Proof. intros H. unfold Igv.make_igv_batch. by rewrite H. Qed.

End Batch.

(** ** C7: the interval of a locus *)

(** C7. For a usable row (a chromosome that is not empty, a position made of
    digits that reads as the integer [P]) the generator emits exactly one
    navigation command, [goto chrom:max(1, P - flank)-(P + flank)], and that
    command is in the script of every run that reads the row and returns. *)
Theorem goto_interval (o : Igv.options) (r : gmap string string) (P : Z) :
  let chrom := Py.strip (Igv.get_or r ["chrom"; "CHROM"]) in
  let pos_str := Py.strip (Igv.get_or r ["pos"; "POS"]) in
  let line :=
    "goto " +:+ chrom +:+ ":" +:+ Py.str_int (Z.max 1 (P - Igv.flank o))
    +:+ "-" +:+ Py.str_int (P + Igv.flank o) in
  Py.truthy chrom = true ->
  Py.isdigit pos_str = true ->
  Py.int pos_str = Ok P ->
  (exists ls, Igv.row_lines o r = Ok (Some ls) /\ filter Igv.is_goto ls = [line])
  /\ (forall records b,
        r ∈ Igv.dict_reader records ->
        Igv.make_igv_batch o records = Ok b ->
        line ∈ Igv.out_lines b).
Proof.
  intros chrom pos_str line Hc Hd Hp.
  destruct (row_lines_usable o r P Hc Hd Hp) as (load & snap & Hr & Hl & Hs & _).
  fold chrom in Hr. change (Igv.goto_line _ _ _) with line in Hr.
  split.
  - eexists. split; [done|].
    by rewrite !filter_app, Hl, Hs, filter_cons, filter_nil.
  - intros records b Hin Hb.
    assert (Igv.dict_reader records <> []) as Hne.
    { intros H0. rewrite H0 in Hin. by apply elem_of_nil in Hin. }
    rewrite (make_igv_batch_rows o records Hne) in Hb.
    unfold mbind, result_bind in Hb.
    destruct (Igv.loop o _ [] 0) as [[l c]|] eqn:Hloop; [|done].
    simplify_eq. simpl.
    pose proof (loop_member o _ r _ l c Hloop Hin Hr) as Hsub. set_solver.
Qed.

Lemma goto_interval_witness :
  Py.truthy (Py.strip (Igv.get_or Sample.locus_row ["chrom"; "CHROM"])) = true
  /\ Py.isdigit (Py.strip (Igv.get_or Sample.locus_row ["pos"; "POS"])) = true
  /\ Py.int (Py.strip (Igv.get_or Sample.locus_row ["pos"; "POS"])) = Ok 1000
  /\ exists ls, Igv.row_lines Sample.single_bam Sample.locus_row = Ok (Some ls)
                /\ filter Igv.is_goto ls = ["goto 1:950-1050"].
Proof.
  assert (Py.truthy (Py.strip (Igv.get_or Sample.locus_row ["chrom"; "CHROM"])) = true)
    as H1 by (by vm_compute).
  assert (Py.isdigit (Py.strip (Igv.get_or Sample.locus_row ["pos"; "POS"])) = true)
    as H2 by (by vm_compute).
  assert (Py.int (Py.strip (Igv.get_or Sample.locus_row ["pos"; "POS"])) = Ok 1000)
    as H3 by (by vm_compute).
  split_and!; try done.
  exact (proj1 (goto_interval Sample.single_bam Sample.locus_row 1000 H1 H2 H3)).
Defined.

Example goto_first_test :
  Igv.out_lines <$> Igv.make_igv_batch Sample.single_bam Sample.one_locus
  = Ok ["new"; "genome GRCh38"; "load /x/sample.bam"; "goto 1:950-1050"].
Proof. by vm_compute. Qed.

(** * Further properties of the code *)

(** ** The depth rule *)

(** X1. For a record that reaches the depth rule: a [DP] value that is
    absent or empty counts as depth zero; a [DP] value that reads as an
    integer drops the record exactly when that integer is below the
    configured minimum; a [DP] value that does not read as an integer makes
    the turn of the loop raise. *)
Theorem depth_rule (cfg : Triage.FilterConfig) (rec : Triage.VariantRecord)
  (af : option spec_float) :
  Triage.drop_nonpass cfg (Triage.FILTER rec) = false ->
  Triage.drop_qual cfg (Triage.qual_or_zero (Triage.QUAL rec)) = false ->
  Triage.parse_af (Triage.INFO rec) = Ok af ->
  Triage.drop_af cfg af = false ->
  (Triage.FORMAT rec !! "DP" = None \/ Triage.FORMAT rec !! "DP" = Some "" ->
   Triage.keep_record cfg rec = Ok (Triage.Dropped Triage.Depth)
   <-> 0 < Triage.min_dp cfg)
  /\ (forall v n, Triage.FORMAT rec !! "DP" = Some v -> v <> "" ->
        Py.int v = Ok n ->
        Triage.keep_record cfg rec = Ok (Triage.Dropped Triage.Depth)
        <-> n < Triage.min_dp cfg)
  /\ (forall v e, Triage.FORMAT rec !! "DP" = Some v -> v <> "" ->
        Py.int v = Raise e -> Triage.keep_record cfg rec = Raise e).
Proof.
  intros Hn Hq Ha Hf. split_and!.
  - intros Hv.
    rewrite (keep_record_depth cfg rec af 0 Hn Hq Ha Hf).
    + unfold Triage.drop_dp. apply Z.ltb_lt.
    + unfold Triage.parse_dp. by destruct Hv as [-> | ->].
  - intros v n Hv Hne Hi.
    rewrite (keep_record_depth cfg rec af n Hn Hq Ha Hf).
    + unfold Triage.drop_dp. apply Z.ltb_lt.
    + unfold Triage.parse_dp. rewrite Hv. by destruct v.
  - intros v e Hv Hne Hi.
    apply (keep_record_depth_raise cfg rec af e Hn Hq Ha Hf).
    unfold Triage.parse_dp. rewrite Hv. by destruct v.
Qed.

Lemma depth_rule_witness :
  Triage.drop_nonpass Triage.default_config
    (Triage.FILTER (Sample.rec_dp_ann None None)) = false
  /\ Triage.drop_qual Triage.default_config
       (Triage.qual_or_zero (Triage.QUAL (Sample.rec_dp_ann None None))) = false
  /\ Triage.parse_af (Triage.INFO (Sample.rec_dp_ann None None)) = Ok None
  /\ Triage.drop_af Triage.default_config None = false
  /\ Triage.keep_record Triage.default_config (Sample.rec_dp_ann None None)
     = Ok (Triage.Dropped Triage.Depth).
Proof.
  do 4 (split; [by vm_compute|]).
  apply (proj1 (depth_rule Triage.default_config (Sample.rec_dp_ann None None) None
                  eq_refl eq_refl eq_refl eq_refl)).
  - by left.
  - by vm_compute.
Defined.

(** ** The gene allowlist *)

(** X2. For a record that passed the five rules before it, with [gene] the
    gene its annotation gives: without an allowlist the record is kept; with
    one it is dropped exactly when the gene is empty or not in the list, so a
    record without [ANN] is always dropped. *)
Theorem gene_rule (cfg : Triage.FilterConfig) (rec : Triage.VariantRecord)
  (af : option spec_float) (dp : Z) (gene consequence hgvsc hgvsp : string) :
  Triage.drop_nonpass cfg (Triage.FILTER rec) = false ->
  Triage.drop_qual cfg (Triage.qual_or_zero (Triage.QUAL rec)) = false ->
  Triage.parse_af (Triage.INFO rec) = Ok af ->
  Triage.drop_af cfg af = false ->
  Triage.parse_dp (Triage.FORMAT rec) = Ok dp ->
  Triage.drop_dp cfg dp = false ->
  Triage.drop_ab (default "" (Triage.FORMAT rec !! "GT"))
    (Triage.allele_balance (Triage.FORMAT rec)) = false ->
  Triage.parse_ann (Triage.INFO rec) = Ok (gene, consequence, hgvsc, hgvsp) ->
  (Triage.genes_set cfg = None ->
   exists t, Triage.keep_record cfg rec = Ok (Triage.Kept t)
             /\ Triage.row_gene t = gene /\ Triage.row_consequence t = consequence)
  /\ (forall gs, Triage.genes_set cfg = Some gs ->
        Triage.keep_record cfg rec = Ok (Triage.Dropped Triage.GeneList)
        <-> gene = "" \/ gene ∉ gs)
  /\ (forall gs, Triage.genes_set cfg = Some gs ->
        Triage.INFO rec !! "ANN" = None ->
        Triage.keep_record cfg rec = Ok (Triage.Dropped Triage.GeneList)).
Proof.
  intros Hn Hq Ha Hf Hd Hp Hb Hann.
  pose proof (keep_record_gene cfg rec af dp gene consequence hgvsc hgvsp
                Hn Hq Ha Hf Hd Hp Hb Hann) as Hk.
  assert (forall gs, Triage.genes_set cfg = Some gs ->
            Triage.keep_record cfg rec = Ok (Triage.Dropped Triage.GeneList)
            <-> gene = "" \/ gene ∉ gs) as Hiff.
  { intros gs Hgs. rewrite Hk. unfold Triage.drop_gene. rewrite Hgs.
    destruct gene as [|c g]; simpl.
    - split; [by left|done].
    - case_bool_decide; simpl; split; try done; [by intros [|]|by right]. }
  split_and!; [|done|].
  - intros Hgs. rewrite Hk. unfold Triage.drop_gene. rewrite Hgs.
    by eexists.
  - intros gs Hgs Hnone. apply (Hiff gs Hgs). left.
    unfold Triage.parse_ann in Hann. rewrite Hnone in Hann. by simplify_eq/=.
Qed.

Lemma gene_rule_witness :
  Triage.drop_nonpass Sample.only_gene2 (Triage.FILTER Sample.rec_gene1) = false
  /\ Triage.drop_qual Sample.only_gene2
       (Triage.qual_or_zero (Triage.QUAL Sample.rec_gene1)) = false
  /\ Triage.parse_af (Triage.INFO Sample.rec_gene1) = Ok None
  /\ Triage.drop_af Sample.only_gene2 None = false
  /\ Triage.parse_dp (Triage.FORMAT Sample.rec_gene1) = Ok 20
  /\ Triage.drop_dp Sample.only_gene2 20 = false
  /\ Triage.drop_ab (default "" (Triage.FORMAT Sample.rec_gene1 !! "GT"))
       (Triage.allele_balance (Triage.FORMAT Sample.rec_gene1)) = false
  /\ Triage.parse_ann (Triage.INFO Sample.rec_gene1)
     = Ok ("GENE1", "missense_variant", "", "")
  /\ Triage.keep_record Sample.only_gene2 Sample.rec_gene1
     = Ok (Triage.Dropped Triage.GeneList).
Proof.
  do 8 (split; [by vm_compute|]).
  apply (proj1 (proj2 (gene_rule Sample.only_gene2 Sample.rec_gene1 None 20
                         "GENE1" "missense_variant" "" ""
                         eq_refl eq_refl eq_refl eq_refl eq_refl eq_refl eq_refl
                         eq_refl)) {[ "GENE2" ]} eq_refl).
  right. set_solver.
Defined.

(** X3. The allowlist that [main] reads from a file holds exactly the
    stripped texts of the lines that are not blank: it never holds the empty
    name, and with it a record is dropped by the gene rule exactly when its
    gene is not in the list. *)
Theorem read_genes_members (gf : list string) :
  (forall g, g ∈ Triage.read_genes gf
             <-> g <> "" /\ exists line, line ∈ gf /\ Py.strip line = g)
  /\ ("" ∉ Triage.read_genes gf)
  /\ (forall cfg gene, Triage.genes_set cfg = Some (Triage.read_genes gf) ->
        Triage.drop_gene cfg gene = true <-> gene ∉ Triage.read_genes gf).
Proof.
  assert (forall g, g ∈ Triage.read_genes gf
             <-> g <> "" /\ exists line, line ∈ gf /\ Py.strip line = g) as Hm.
  { intros g. unfold Triage.read_genes.
    rewrite elem_of_list_to_set, list_elem_of_fmap. split.
    - intros (line & -> & [Ht Hin]%list_elem_of_filter).
      split; [by destruct (Py.strip line)|by exists line].
    - intros (Hne & line & Hin & <-). exists line. split; [done|].
      apply list_elem_of_filter. split; [|done]. by destruct (Py.strip line). }
  assert ("" ∉ Triage.read_genes gf) as He by (rewrite Hm; by intros [? _]).
  split_and!; [done..|].
  intros cfg gene Hgs. unfold Triage.drop_gene. rewrite Hgs.
  destruct gene as [|c g]; simpl; [done|].
  rewrite negb_true_iff, bool_decide_eq_false. done.
Qed.

Example read_genes_example :
  Triage.read_genes [(" GENE1 " +:+ nl); nl; "GENE2"] = {[ "GENE1"; "GENE2" ]}.
Proof. by vm_compute. Qed.

(** ** The [INFO] dictionary *)

Section Info.

Lemma foldl_insert_reverse (l : list (string * string)) :
  foldl (fun d kv => <[kv.1 := kv.2]> d) (∅ : gmap string string) l
  = list_to_map (reverse l).
Proof.
  induction l as [|kv l IH] using rev_ind; [done|].
  by rewrite foldl_app, reverse_app, IH.
Qed.

Lemma parse_info_fold (fields : list string) (m : gmap string string) :
  foldl Triage.parse_info_field m fields
  = foldl (fun d kv => <[kv.1 := kv.2]> d) m (omap Spec.field_entry fields).
Proof.
  revert m. induction fields as [|f fields IH]; intros m; [done|].
  assert (Triage.parse_info_field m f
          = match Spec.field_entry f with
            | Some kv => <[kv.1 := kv.2]> m
            | None => m
            end) as Hf.
  { unfold Triage.parse_info_field, Spec.field_entry.
    destruct f as [|c f]; [done|]. simpl Py.truthy. cbv iota.
    by destruct (Py.split_once "=" (String c f)) as [[k v]|]. }
  simpl. rewrite IH, Hf. by destruct (Spec.field_entry f).
Qed.

(** X4. The dictionary of an [INFO] text holds, for each key, the value of
    the last field that carries the key: empty fields count for nothing, a
    field is cut at its first [=], and a field without [=] is a flag that
    reads [True]. *)
Theorem parse_info_last_wins (s : string) :
  Triage.parse_info s
  = list_to_map (reverse (omap Spec.field_entry (Py.split ";" s))).
Proof.
  unfold Triage.parse_info. by rewrite parse_info_fold, foldl_insert_reverse.
Qed.

Example parse_info_example :
  Triage.parse_info "AF=0.5;;DB;AF=0.1;X=a=b;."
  = {[ "AF" := "0.1"; "DB" := "True"; "X" := "a=b"; "." := "True" ]}.
Proof. by vm_compute. Qed.

Lemma split_lacks (sep : ascii) (s : string) :
  Spec.lacks sep s = true -> Py.split sep s = [s].
Proof.
  unfold Spec.lacks. induction s as [|c s IH]; simpl; [done|].
  rewrite andb_true_iff, negb_true_iff. intros [-> Hs]. by rewrite (IH Hs).
Qed.

Lemma split_app_sep (sep : ascii) (a b : string) :
  Spec.lacks sep a = true ->
  Py.split sep (a +:+ String sep b) = a :: Py.split sep b.
Proof.
  unfold Spec.lacks. induction a as [|c a IH]; simpl.
  - intros _. unfold String.app. simpl. by rewrite Ascii.eqb_refl.
  - rewrite andb_true_iff, negb_true_iff. intros [Hc Ha].
    unfold String.app in *. simpl. by rewrite Hc, (IH Ha).
Qed.

(** Splitting a joined list gives the list back. *)
Lemma split_join (sep : ascii) (l : list string) :
  l <> [] -> Forall (fun x => Spec.lacks sep x = true) l ->
  Py.split sep (Py.join (String sep "") l) = l.
Proof.
  induction l as [|x l IH]; [done|]. intros _ Hl.
  apply Forall_cons in Hl as [Hx Hl]. destruct l as [|y l].
  - simpl. by apply split_lacks.
  - change (Py.join (String sep "") (x :: y :: l))
      with (x +:+ String sep (Py.join (String sep "") (y :: l))).
    by rewrite split_app_sep, IH.
Qed.

Lemma split_once_app (sep : ascii) (k v : string) :
  Spec.lacks sep k = true -> Py.split_once sep (k +:+ String sep v) = Some (k, v).
Proof.
  unfold Spec.lacks. induction k as [|c k IH]; simpl.
  - intros _. unfold String.app. simpl. by rewrite Ascii.eqb_refl.
  - rewrite andb_true_iff, negb_true_iff. intros [Hc Hk].
    unfold String.app in *. simpl. by rewrite Hc, (IH Hk).
Qed.

Lemma lacks_app (c : ascii) (a b : string) :
  Spec.lacks c (a +:+ b) = Spec.lacks c a && Spec.lacks c b.
Proof.
  unfold Spec.lacks, String.app. induction a as [|x a IH]; simpl; [done|].
  by rewrite IH, andb_assoc.
Qed.

Lemma field_entry_key_value (kv : string * string) :
  kv.1 <> "" -> Spec.lacks "=" kv.1 = true ->
  Spec.field_entry (Spec.key_value kv) = Some kv.
Proof.
  destruct kv as [k v]. simpl. intros Hne Hk.
  unfold Spec.field_entry, Spec.key_value. simpl.
  rewrite (split_once_app "=" k v Hk).
  destruct k as [|c k]; [done|]. by unfold String.app.
Qed.

(** X5. Writing key-value pairs as [k=v] fields joined by semicolons and
    parsing the text gives the pairs back, a later pair of the same key
    winning, provided the keys are not empty and contain neither [=] nor
    a semicolon and the values contain no semicolon. *)
Theorem parse_info_round_trip (kvs : list (string * string)) :
  Forall (fun kv => kv.1 <> "" /\ Spec.lacks "=" kv.1 = true
                    /\ Spec.lacks ";" kv.1 = true /\ Spec.lacks ";" kv.2 = true) kvs ->
  Triage.parse_info (Py.join ";" (map Spec.key_value kvs))
  = list_to_map (reverse kvs).
Proof.
  intros Hk. unfold Triage.parse_info.
  rewrite parse_info_fold, foldl_insert_reverse. do 2 f_equal.
  destruct kvs as [|kv kvs]; [done|].
  rewrite split_join.
  - induction Hk as [|kv0 l (Hne & He & _ & _) _ IH]; [done|].
    csimpl. by rewrite field_entry_key_value, IH.
  - done.
  - apply Forall_fmap. eapply Forall_impl; [exact Hk|].
    intros [k v] (_ & _ & H1 & H2). simpl in *.
    unfold Spec.key_value. simpl.
    change (String "=" v) with ("=" +:+ v). by rewrite !lacks_app, H1, H2.
Qed.

Lemma parse_info_round_trip_witness :
  Triage.parse_info (Py.join ";" (map Spec.key_value [("AF", "0.5"); ("DP", "20")]))
  = list_to_map (reverse [("AF", "0.5"); ("DP", "20")]).
Proof.
  apply (parse_info_round_trip [("AF", "0.5"); ("DP", "20")]).
  repeat constructor; done.
Defined.

End Info.

(** ** The per-sample dictionary [FORMAT] *)

Section Format.




End Format.

(** ** The tokens of a line *)

Section Tokens.

Lemma re_split_ws_nonempty (s : string) : Py.re_split_ws s <> [].
Proof. destruct s as [|c s]; simpl; [done|]. by repeat case_match. Qed.

Lemma re_split_ws_blank_free (s : string) :
  Forall (fun t => Spec.blank_free t = true) (Py.re_split_ws s).
Proof.
  unfold Spec.blank_free.
  induction s as [|c s IH]; simpl; [by repeat constructor|].
  destruct (Py.isspace c) eqn:Hc.
  - constructor; [done|]. destruct s as [|c' s']; [done|].
    destruct (Py.isspace c'); [|done]. by apply Forall_tail.
  - destruct (Py.re_split_ws s) as [|h t]; [by repeat constructor; simpl; rewrite Hc|].
    apply Forall_cons in IH as [Hh Ht]. constructor; [|done].
    simpl. by rewrite Hc, Hh.
Qed.

Lemma re_split_ws_tail (s : string) :
  Spec.ends_well s = true -> Forall (fun t => t <> "") (tail (Py.re_split_ws s)).
Proof.
  induction s as [|c s IH]; [by constructor|]. intros He.
  assert (s <> "" -> Spec.ends_well s = true) as Hs.
  { intros Hne. by destruct s. }
  simpl. destruct (Py.isspace c) eqn:Hc.
  - destruct s as [|c' s']; [simpl in He; by rewrite Hc in He|].
    specialize (IH (Hs ltac:(done))). simpl.
    destruct (Py.isspace c') eqn:Hc'.
    + simpl in IH. by rewrite Hc' in IH.
    + simpl in IH. rewrite Hc' in IH.
      destruct (Py.re_split_ws s') as [|h t]; constructor; done.
  - destruct s as [|c' s']; [by constructor|].
    specialize (IH (Hs ltac:(done))).
    by destruct (Py.re_split_ws (String c' s')).
Qed.

Lemma lstrip_by_head (p : ascii -> bool) (s : string) :
  Py.lstrip_by p s = "" \/ exists c r, Py.lstrip_by p s = String c r /\ p c = false.
Proof.
  induction s as [|c s IH]; simpl; [by left|].
  destruct (p c) eqn:Hc; [done|]. right. by exists c, s.
Qed.

Lemma rstrip_by_head (p : ascii -> bool) (c : ascii) (s : string) :
  Py.rstrip_by p (String c s) = "" \/ exists r, Py.rstrip_by p (String c s) = String c r.
Proof. simpl. repeat case_match; eauto. Qed.

Lemma rstrip_by_ends_well (s : string) : Spec.ends_well (Py.rstrip_by Py.isspace s) = true.
Proof.
  induction s as [|c s IH]; simpl; [done|].
  destruct (Py.rstrip_by Py.isspace s) as [|c' r] eqn:Hr.
  - destruct (Py.isspace c) eqn:Hc; simpl; [done|]. by rewrite Hc.
  - done.
Qed.

(** The tokens of a line that is not blank are not empty and hold no blank. *)
Lemma tokens_shape (line : string) :
  Py.strip line <> "" ->
  Forall (fun t => t <> "" /\ Spec.blank_free t = true) (Triage.tokens line).
Proof.
  intros Hne. apply Forall_and. split; [|apply re_split_ws_blank_free].
  unfold Triage.tokens. pose proof (rstrip_by_ends_well (Py.lstrip_by Py.isspace line)) as He.
  unfold Py.strip in *.
  destruct (lstrip_by_head Py.isspace line) as [H0|(c & r & Hl & Hc)].
  { by rewrite H0 in Hne. }
  rewrite Hl in *.
  destruct (rstrip_by_head Py.isspace c r) as [H0|(r' & Hr)]; [done|].
  rewrite Hr in *. pose proof (re_split_ws_tail r') as Ht.
  simpl. rewrite Hc.
  assert (Spec.ends_well r' = true) as Hr' by (by destruct r').
  specialize (Ht Hr').
  destruct (Py.re_split_ws r') as [|h t] eqn:Hs; [by repeat constructor|].
  by constructor.
Qed.


Lemma split_all_chars (p : ascii -> bool) (sep : ascii) (s : string) :
  Py.all_chars p s = true -> Forall (fun t => Py.all_chars p t = true) (Py.split sep s).
Proof.
  induction s as [|c s IH]; simpl; [by repeat constructor|].
  rewrite andb_true_iff. intros [Hc Hs]. specialize (IH Hs).
  destruct (Ascii.eqb c sep); [by constructor|].
  destruct (Py.split sep s) as [|h t]; [by repeat constructor; simpl; rewrite Hc|].
  apply Forall_cons in IH as [Hh Ht]. constructor; [|done]. simpl. by rewrite Hc, Hh.
Qed.

End Tokens.

(** ** The records of the reader *)

(** X7. Every record the reader yields has a chromosome and a reference
    allele that are not empty and hold no blank, at least one alternate
    allele, none of them with a blank, and a filter status that is not
    empty, holds no blank and is never the missing-value sentinel. *)
Theorem record_shape (line : string) (rec : Triage.VariantRecord) :
  Triage.read_line line = Ok (Some rec) ->
  (Triage.CHROM rec <> "" /\ Spec.blank_free (Triage.CHROM rec) = true)
  /\ (Triage.REF rec <> "" /\ Spec.blank_free (Triage.REF rec) = true)
  /\ (Triage.ALT rec <> []
      /\ Forall (fun a => Spec.blank_free a = true) (Triage.ALT rec))
  /\ (Triage.FILTER rec <> "" /\ Triage.FILTER rec <> "."
      /\ Spec.blank_free (Triage.FILTER rec) = true).
Proof.
  intros (chrom & pos & id & ref & alt & qual & flt & info & Ht & Hs & <- & _ &
          <- & -> & _ & -> & _)%read_line_yield.
  assert (Py.strip line <> "") as Hne by (by destruct (Py.strip line)).
  pose proof (Forall_take _ 8%nat _ (tokens_shape line Hne)) as Hall.
  rewrite Ht in Hall.
  repeat (apply Forall_cons in Hall as [[? ?] Hall]).
  split_and!; try done; try (by case_bool_decide).
  - apply split_nonempty.
  - by apply split_all_chars.
Qed.

Lemma record_shape_witness :
  exists rec, Triage.read_line Sample.good_line = Ok (Some rec)
              /\ Triage.CHROM rec <> "" /\ Triage.ALT rec <> [].
Proof.
  eexists. split; [by vm_compute|].
  pose proof (record_shape Sample.good_line _ eq_refl) as H.
  split; [apply H|apply H].
Defined.

(** ** Lines that leave no trace *)

Section NoEffect.

Variable cfg : Triage.FilterConfig.

Lemma read_line_passed_over (line : string) :
  Py.startswith "##" line = true \/ Py.startswith "#CHROM" line = true
  \/ Py.strip line = "" \/ (length (Triage.tokens line) < 8)%nat ->
  Triage.read_line line = Ok None.
Proof.
  unfold Triage.read_line. intros H.
  destruct (Py.startswith "##" line) eqn:H1; [done|].
  destruct (Py.startswith "#CHROM" line) eqn:H2; [done|].
  destruct H as [H|[H|[H|H]]]; try done.
  - by rewrite H.
  - destruct (negb _); [done|]. apply Nat.ltb_lt in H. by rewrite H.
Qed.

Lemma loop_iter_skip (line : string) (l1 l2 : list string) (st : Triage.state) :
  Triage.read_line line = Ok None ->
  Triage.triage_loop cfg st (Triage.simple_vcf_iter (l1 ++ line :: l2))
  = Triage.triage_loop cfg st (Triage.simple_vcf_iter (l1 ++ l2)).
Proof.
  intros Hr. revert st. induction l1 as [|l l1 IH]; intros st; simpl.
  - by rewrite Hr.
  - destruct (Triage.read_line l) as [[r|]|]; simpl; try done.
    by destruct (Triage.triage_record cfg st r).
Qed.

Lemma loop_iter_dropped (line : string) (rec : Triage.VariantRecord) (r : Triage.rule)
  (l1 l2 : list string) (st : Triage.state) :
  Triage.read_line line = Ok (Some rec) ->
  Triage.keep_record cfg rec = Ok (Triage.Dropped r) ->
  Triage.triage_loop cfg st (Triage.simple_vcf_iter (l1 ++ line :: l2))
  = Triage.triage_loop cfg st (Triage.simple_vcf_iter (l1 ++ l2)).
Proof.
  intros Hr Hk. revert st. induction l1 as [|l l1 IH]; intros st; simpl.
  - rewrite Hr. simpl. unfold Triage.triage_record. by rewrite Hk.
  - destruct (Triage.read_line l) as [[r'|]|]; simpl; try done.
    by destruct (Triage.triage_record cfg st r').
Qed.

Lemma triage_of_loop (lines lines' : list string) :
  Triage.triage_loop cfg Triage.init (Triage.simple_vcf_iter lines)
  = Triage.triage_loop cfg Triage.init (Triage.simple_vcf_iter lines') ->
  Triage.triage cfg lines = Triage.triage cfg lines'.
Proof. intros H. unfold Triage.triage. by rewrite H. Qed.

End NoEffect.

(** X8. A line that the reader passes over (a [##] line, the [#CHROM] line,
    a blank line, a line of fewer than eight tokens) and a line whose record
    a rule drops leave no trace: the run over the file gives what the run
    over the file without the line gives. *)
Theorem line_without_effect (cfg : Triage.FilterConfig) (line : string)
  (l1 l2 : list string) :
  (Py.startswith "##" line = true \/ Py.startswith "#CHROM" line = true
   \/ Py.strip line = "" \/ (length (Triage.tokens line) < 8)%nat)
  \/ (exists rec r, Triage.read_line line = Ok (Some rec)
                    /\ Triage.keep_record cfg rec = Ok (Triage.Dropped r)) ->
  Triage.triage cfg (l1 ++ line :: l2) = Triage.triage cfg (l1 ++ l2).
Proof.
  intros [H|(rec & r & Hr & Hk)]; apply triage_of_loop.
  - by apply loop_iter_skip, read_line_passed_over.
  - by apply (loop_iter_dropped cfg line rec r).
Qed.

Lemma line_without_effect_witness :
  Triage.triage Triage.default_config
    ([Sample.good_line] ++ Sample.low_qual_line :: [Sample.short_line])
  = Triage.triage Triage.default_config ([Sample.good_line] ++ [Sample.short_line]).
Proof.
  apply (line_without_effect Triage.default_config Sample.low_qual_line).
  right.
  pose (r := Triage.read_line Sample.low_qual_line). vm_compute in r.
  match eval unfold r in r with
  | Ok (Some ?rec) => exists rec, Triage.Quality
  end.
  clear r. split; by vm_compute.
Defined.

(** ** The rows of a run *)

Section Rows.

Variable cfg : Triage.FilterConfig.

Lemma foldl_emit_row (t : Triage.TriageRow) (alts : list string) (st : Triage.state) :
  Triage.rows (foldl (Triage.emit_row t) st alts)
  = Triage.rows st ++ map (Triage.with_alt t) alts
  /\ Triage.kept (foldl (Triage.emit_row t) st alts)
     = Triage.kept st + Z.of_nat (length alts).
Proof.
  revert st. induction alts as [|a alts IH]; intros st; simpl.
  - rewrite app_nil_r. split; [done|lia].
  - destruct (IH (Triage.emit_row t st a)) as [-> ->]. simpl.
    rewrite <- app_assoc. split; [done|lia].
Qed.

Lemma triage_record_rows (st st' : Triage.state) (rec : Triage.VariantRecord) :
  Triage.triage_record cfg st rec = Ok st' ->
  Triage.rows st' = Triage.rows st ++ Spec.rows_of cfg rec
  /\ Triage.kept st' = Triage.kept st + Z.of_nat (length (Spec.rows_of cfg rec))
  /\ is_Some (match Triage.keep_record cfg rec with Ok v => Some v | Raise _ => None end).
Proof.
  unfold Triage.triage_record, Spec.rows_of, mbind, result_bind.
  destruct (Triage.keep_record cfg rec) as [[r|t]|e]; [| |done].
  - intros [= <-]. rewrite app_nil_r. split_and!; [done|simpl; lia|done].
  - intros [= <-]. destruct (foldl_emit_row t (Triage.ALT rec) st) as [-> ->].
    by rewrite length_map.
Qed.

Lemma triage_loop_rows (recs : list (result Triage.VariantRecord)) (st : Triage.state) :
  let new := concat (map (Spec.rows_of cfg) (Spec.completed cfg recs)) in
  Triage.rows (Triage.triage_loop cfg st recs).1 = Triage.rows st ++ new
  /\ Triage.kept (Triage.triage_loop cfg st recs).1
     = Triage.kept st + Z.of_nat (length new)
  /\ ((Triage.triage_loop cfg st recs).2 = None ->
      map Ok (Spec.completed cfg recs) = recs).
Proof.
  revert st. induction recs as [|[rec|e] recs IH]; intros st; simpl.
  - rewrite app_nil_r. split_and!; [done|lia|done].
  - destruct (Triage.triage_record cfg st rec) as [st'|e] eqn:Hrec.
    + apply triage_record_rows in Hrec as (Hr & Hk & Hs).
      destruct (Triage.keep_record cfg rec) as [v|e]; [|by destruct Hs].
      simpl. destruct (IH st') as (-> & -> & H). rewrite Hr, Hk.
      rewrite length_app, <- app_assoc. split_and!; [done|lia|].
      intros He. by rewrite (H He).
    + unfold Triage.triage_record, mbind, result_bind in Hrec.
      destruct (Triage.keep_record cfg rec) as [[r|t]|e']; try done.
      simpl. rewrite app_nil_r. split_and!; [done|lia|done].
  - rewrite app_nil_r. split_and!; [done|lia|done].
Qed.

End Rows.

(** X9. The rows of a run are the rows of its records, in the order of the
    file: a record that every rule keeps gives one row for each of its
    alternate alleles, with that allele in the [alt] column, and a record
    that a rule drops gives none. The table is the header followed by these
    rows, every line of it has thirteen cells, and [kept] is the number of
    rows. When no exception ended the run, every record of the file had its
    turn. *)
Theorem rows_per_record (cfg : Triage.FilterConfig) (lines : list string) :
  let out := Triage.triage cfg lines in
  let recs := Spec.completed cfg (Triage.simple_vcf_iter lines) in
  Triage.rows (Triage.final out) = concat (map (Spec.rows_of cfg) recs)
  /\ Forall (fun rec => Spec.rows_of cfg rec = []
                        \/ map Triage.row_alt (Spec.rows_of cfg rec) = Triage.ALT rec) recs
  /\ Triage.table out = Triage.cols :: map Triage.csv_row (Triage.rows (Triage.final out))
  /\ Forall (fun cells => length cells = 13%nat) (Triage.table out)
  /\ Triage.kept (Triage.final out) = Z.of_nat (length (Triage.rows (Triage.final out)))
  /\ (Triage.raised out = None -> map Ok recs = Triage.simple_vcf_iter lines).
Proof.
  intros out recs. subst out.
  rewrite triage_table, !triage_final, triage_raised.
  destruct (triage_loop_rows cfg (Triage.simple_vcf_iter lines) Triage.init)
    as (Hr & Hk & He).
  simpl in Hr, Hk. fold recs in Hr, Hk, He. rewrite Hr, Hk.
  split_and!; try done.
  - apply Forall_forall. intros rec _. unfold Spec.rows_of.
    destruct (Triage.keep_record cfg rec) as [[r|t]|e]; auto.
    right. rewrite map_map. simpl. apply map_id.
  - constructor; [done|]. apply Forall_map, Forall_forall. done.
Qed.

Example small_vcf_table :
  Triage.table (Triage.triage Triage.default_config Sample.small_vcf)
  = [Triage.cols;
     ["1"; "1000"; "A"; "T"; "GENE1"; "missense_variant"; ""; ""; "0.001"; "0/1"; "20";
      ""; "PASS"];
     ["1"; "1000"; "A"; "G"; "GENE1"; "missense_variant"; ""; ""; "0.001"; "0/1"; "20";
      ""; "PASS"];
     ["2"; "-5"; "C"; "G"; "GENE2"; "stop_gained"; ""; ""; ""; "0/1"; "30"; ""; "PASS"];
     ["3"; "7"; "C"; "G"; "GENE2"; "stop_gained"; ""; ""; ""; "0/1"; "30"; ""; "PASS"];
     ["4"; "9"; "C"; "G"; "GENE2"; "frameshift_variant"; ""; ""; ""; "0/1"; "30"; "";
      "PASS"]].
Proof. by vm_compute. Qed.

(** ** The consequence counter *)

Section Counter.

Implicit Types d : list (string * Z).

Lemma dict_get_set d (k k' : string) (v dflt : Z) :
  Triage.dict_get (Triage.dict_set d k v) k' dflt
  = if bool_decide (k = k') then v else Triage.dict_get d k' dflt.
Proof.
  induction d as [|[k0 v0] d IH]; simpl.
  - done.
  - destruct (bool_decide_reflect (k0 = k)) as [->|Hk0]; simpl.
    + by destruct (bool_decide_reflect (k = k')).
    + rewrite IH. destruct (bool_decide_reflect (k0 = k')) as [->|?]; [|done].
      by rewrite bool_decide_eq_false_2 by done.
Qed.

Lemma dict_set_keys d (k : string) (v : Z) :
  (Triage.dict_set d k v).*1 = if bool_decide (k ∈ d.*1) then d.*1 else d.*1 ++ [k].
Proof.
  induction d as [|[k0 v0] d IH]; csimpl; [done|].
  destruct (bool_decide_reflect (k0 = k)) as [->|Hk0]; csimpl.
  - rewrite bool_decide_eq_true_2; [done|]. apply elem_of_cons. by left.
  - rewrite IH. destruct (bool_decide_reflect (k ∈ d.*1)) as [Hin|Hin].
    + rewrite bool_decide_eq_true_2; [done|]. apply elem_of_cons. by right.
    + rewrite bool_decide_eq_false_2; [done|].
      intros [?|?]%elem_of_cons; [by subst|done].
Qed.

Lemma dict_set_values d (k : string) (v : Z) :
  Forall (fun kv => 0 < kv.2) d -> 0 < v ->
  Forall (fun kv => 0 < kv.2) (Triage.dict_set d k v).
Proof.
  intros Hd Hv. induction Hd as [|[k0 v0] d H0 Hd IH]; simpl.
  - by constructor.
  - destruct (bool_decide (k0 = k)); constructor; done.
Qed.

Lemma dict_get_member d (k : string) :
  Forall (fun kv => 0 < kv.2) d ->
  (k ∈ d.*1 <-> 0 < Triage.dict_get d k 0) /\ 0 <= Triage.dict_get d k 0.
Proof.
  intros Hd. induction Hd as [|[k0 v0] d H0 Hd IH]; simpl.
  - split; [|done]. split; [by intros ?%elem_of_nil|lia].
  - simpl in H0. destruct (bool_decide_reflect (k0 = k)) as [->|Hk0].
    + split; [|lia]. split; [done|]. intros _. apply elem_of_cons. by left.
    + destruct IH as [IH1 IH2]. split; [|done]. rewrite <- IH1.
      rewrite elem_of_cons. simpl. split; [intros [?|?]; [by subst|done]|by right].
Qed.

Lemma counted_init : Spec.counted Triage.init.
Proof.
  split_and!; [constructor|constructor|]. intros c. simpl. by destruct (Py.truthy c).
Qed.

Lemma counted_emit_row (t : Triage.TriageRow) (st : Triage.state) (alt : string) :
  Spec.counted st -> Spec.counted (Triage.emit_row t st alt).
Proof.
  intros (Hnd & Hpos & Hget). unfold Spec.counted, Triage.emit_row. simpl.
  set (c0 := Triage.row_consequence t).
  assert (forall c, Spec.occurrences c (Triage.rows st ++ [Triage.with_alt t alt])
                    = Spec.occurrences c (Triage.rows st)
                      + if bool_decide (c0 = c) then 1 else 0) as Hocc.
  { intros c. unfold Spec.occurrences. rewrite filter_app, length_app.
    rewrite filter_cons, filter_nil. simpl. fold c0.
    destruct (decide (c0 = c)) as [Hc|Hc].
    - rewrite bool_decide_eq_true_2 by done. simpl. lia.
    - rewrite bool_decide_eq_false_2 by done. simpl. lia. }
  destruct (Py.truthy c0) eqn:Hc0.
  - split_and!.
    + rewrite dict_set_keys. case_bool_decide; [done|].
      apply NoDup_app. split_and!; [done| |apply NoDup_singleton].
      intros x Hx Hx'%list_elem_of_singleton. by subst.
    + apply dict_set_values; [done|].
      pose proof (dict_get_member (Triage.by_consequence st) c0 Hpos). lia.
    + intros c. rewrite dict_get_set, Hocc, !Hget, Hc0.
      destruct (bool_decide_reflect (c0 = c)) as [<-|?].
      * by rewrite Hc0.
      * destruct (Py.truthy c); lia.
  - split_and!; [done|done|].
    intros c. rewrite Hget, Hocc.
    destruct (bool_decide_reflect (c0 = c)) as [<-|?].
    + by rewrite Hc0.
    + destruct (Py.truthy c); lia.
Qed.

Lemma counted_foldl (t : Triage.TriageRow) (alts : list string) (st : Triage.state) :
  Spec.counted st -> Spec.counted (foldl (Triage.emit_row t) st alts).
Proof.
  revert st. induction alts as [|a alts IH]; intros st Hst; simpl; [done|].
  by apply IH, counted_emit_row.
Qed.

Lemma counted_loop (cfg : Triage.FilterConfig) (recs : list (result Triage.VariantRecord))
  (st : Triage.state) :
  Spec.counted st -> Spec.counted (Triage.triage_loop cfg st recs).1.
Proof.
  revert st. induction recs as [|[rec|e] recs IH]; intros st Hst; simpl; try done.
  unfold Triage.triage_record, mbind, result_bind.
  destruct (Triage.keep_record cfg rec) as [[r|t]|e]; try done.
  - by apply IH.
  - by apply IH, counted_foldl.
Qed.

End Counter.

(** X10. The consequence counter lists each term once. The count of a term
    that is not empty is the number of rows that carry it, the empty term is
    never counted, and a term is listed exactly when it is not empty and some
    row carries it. *)
Theorem consequence_counter (cfg : Triage.FilterConfig) (lines : list string) (c : string) :
  let st := Triage.final (Triage.triage cfg lines) in
  NoDup (Triage.by_consequence st).*1
  /\ Triage.dict_get (Triage.by_consequence st) c 0
     = (if bool_decide (c = "") then 0 else Spec.occurrences c (Triage.rows st))
  /\ (c ∈ (Triage.by_consequence st).*1
      <-> c <> "" /\ exists r, r ∈ Triage.rows st /\ Triage.row_consequence r = c).
Proof.
  intros st. subst st. rewrite triage_final.
  destruct (counted_loop cfg (Triage.simple_vcf_iter lines) Triage.init counted_init)
    as (Hnd & Hpos & Hget).
  set (st := (Triage.triage_loop cfg Triage.init (Triage.simple_vcf_iter lines)).1) in *.
  assert (Triage.dict_get (Triage.by_consequence st) c 0
          = (if bool_decide (c = "") then 0 else Spec.occurrences c (Triage.rows st))) as Hc.
  { rewrite Hget. by destruct c. }
  split_and!; [done|done|].
  rewrite (proj1 (dict_get_member _ c Hpos)), Hc.
  unfold Spec.occurrences. case_bool_decide as Hc0.
  - split; [lia|]. by intros [? _].
  - split.
    + intros Hlen. split; [done|].
      destruct (filter _ (Triage.rows st)) as [|r l] eqn:Hf; [simpl in Hlen; lia|].
      exists r. apply and_comm.
      apply (list_elem_of_filter (fun r => Triage.row_consequence r = c)).
      rewrite Hf. apply elem_of_cons. by left.
    + intros (_ & r & Hr & Hrc).
      assert (r ∈ filter (fun r => Triage.row_consequence r = c) (Triage.rows st)) as Hin
        by (by apply list_elem_of_filter).
      destruct (filter _ (Triage.rows st)); [by apply elem_of_nil in Hin|simpl; lia].
Qed.

(** ** The summary *)

Section Sorting.

Context {A : Type} (lt : A -> A -> bool).

Hypothesis lt_asym : forall x y, lt x y = true -> lt y x = false.
Hypothesis le_trans :
  forall x y z, lt y x = false -> lt z y = false -> lt z x = false.

Lemma insert_by_perm (x : A) (l : list A) : Triage.insert_by lt x l ≡ₚ x :: l.
Proof.
  induction l as [|y l IH]; simpl; [done|].
  destruct (lt y x); [|done]. rewrite IH. apply Permutation_swap.
Qed.

Lemma sorted_by_perm (l : list A) : Triage.sorted_by lt l ≡ₚ l.
Proof.
  induction l as [|x l IH]; simpl; [done|].
  unfold Triage.sorted_by in *. simpl. by rewrite insert_by_perm, IH.
Qed.

Lemma insert_by_sorted (x : A) (l : list A) :
  StronglySorted (fun a b => lt b a = false) l ->
  StronglySorted (fun a b => lt b a = false) (Triage.insert_by lt x l).
Proof.
  induction 1 as [|y l Hs IH Hy]; simpl.
  - constructor; [constructor|constructor].
  - destruct (lt y x) eqn:Hyx.
    + constructor; [done|]. rewrite insert_by_perm. constructor; [|done].
      by apply lt_asym.
    + constructor; [by constructor|]. constructor; [done|].
      eapply Forall_impl; [exact Hy|]. intros z Hz. by apply (le_trans x y z).
Qed.

Lemma sorted_by_sorted (l : list A) :
  StronglySorted (fun a b => lt b a = false) (Triage.sorted_by lt l).
Proof.
  induction l as [|x l IH]; [constructor|]. by apply insert_by_sorted.
Qed.

End Sorting.

Section Summary.

Lemma string_ltb_leb (a b : string) : String.ltb a b = negb (String.leb b a).
Proof.
  unfold String.ltb, String.leb. rewrite (String.compare_antisym a b).
  by destruct (String.compare b a).
Qed.

Lemma key_lt_before (x y : string * Z) : Triage.key_lt x y = true <-> Spec.before x y.
Proof.
  unfold Triage.key_lt, Spec.before.
  rewrite orb_true_iff, andb_true_iff, Z.ltb_lt, Z.eqb_eq. intuition lia.
Qed.

Lemma key_lt_false (x y : string * Z) :
  Triage.key_lt y x = false <-> y.2 < x.2 \/ (x.2 = y.2 /\ String.leb x.1 y.1 = true).
Proof.
  unfold Triage.key_lt.
  rewrite orb_false_iff, andb_false_iff, Z.ltb_ge, Z.eqb_neq, string_ltb_leb.
  rewrite negb_false_iff. split.
  - intros [H1 [H2|H2]]; [left; lia|].
    destruct (decide (x.2 = y.2)); [by right|left; lia].
  - intros [H|[H1 H2]]; (split; [lia|]); [left; lia|by right].
Qed.

Lemma key_lt_asym (x y : string * Z) :
  Triage.key_lt x y = true -> Triage.key_lt y x = false.
Proof.
  rewrite key_lt_before, key_lt_false. unfold Spec.before.
  rewrite string_ltb_leb, negb_true_iff.
  destruct (String.leb_total x.1 y.1) as [H|H]; rewrite H; intuition (try lia; try done).
Qed.

Lemma key_le_trans (x y z : string * Z) :
  Triage.key_lt y x = false -> Triage.key_lt z y = false -> Triage.key_lt z x = false.
Proof.
  rewrite !key_lt_false. intros [?|[? Hxy]] [?|[? Hyz]]; try lia.
  right. split; [lia|].
  apply Is_true_true. apply Is_true_true in Hxy, Hyz.
  by apply (transitivity (R := String.le) Hxy Hyz).
Qed.

Lemma key_le_before (x y : string * Z) :
  Triage.key_lt y x = false -> x.1 <> y.1 -> Spec.before x y.
Proof.
  rewrite key_lt_false. unfold Spec.before. intros [?|[? Hxy]] Hne; [by left|].
  right. split; [done|]. rewrite string_ltb_leb, negb_true_iff.
  destruct (String.leb y.1 x.1) eqn:Hyx; [|done].
  destruct Hne. by apply String.leb_antisym.
Qed.

Lemma sorted_before (l : list (string * Z)) :
  StronglySorted (fun x y => Triage.key_lt y x = false) l ->
  NoDup l.*1 -> StronglySorted Spec.before l.
Proof.
  induction 1 as [|x l Hs IH Hx]; csimpl; [constructor|].
  intros [Hnin Hnd]%NoDup_cons. constructor; [by apply IH|].
  apply Forall_forall. intros y Hy.
  apply key_le_before; [by eapply Forall_forall in Hx|].
  intros Heq. apply Hnin. rewrite Heq. by apply list_elem_of_fmap_2.
Qed.

End Summary.

(** X11. When a summary path is given and no exception ended the run, the
    summary is the line [Kept variants: n] and, when some term was counted,
    the line [By consequence:] followed by one line for each term of the
    counter: the terms with the larger count first, and terms of equal count
    in the order of their texts. *)
Theorem summary_order (cfg : Triage.FilterConfig) (lines : list string) (p : string) :
  Triage.summary_path cfg = Some p ->
  p <> "" ->
  Triage.raised (Triage.triage cfg lines) = None ->
  let st := Triage.final (Triage.triage cfg lines) in
  exists l,
    l ≡ₚ Triage.by_consequence st
    /\ StronglySorted Spec.before l
    /\ Triage.summary (Triage.triage cfg lines)
       = Some (Py.join ""
                 (("Kept variants: " +:+ Py.str_int (Triage.kept st) +:+ nl)
                  :: (if bool_decide (l = []) then []
                      else ("By consequence:" +:+ nl) :: map Triage.consequence_line l))).
Proof.
  intros Hp Hne Hr st.
  pose proof (counted_loop cfg (Triage.simple_vcf_iter lines) Triage.init counted_init)
    as (Hnd & _).
  subst st. revert Hr. rewrite triage_raised, triage_final.
  unfold Triage.triage.
  destruct (Triage.triage_loop cfg Triage.init (Triage.simple_vcf_iter lines)) as [st e].
  simpl in *. intros ->. rewrite Hp.
  exists (Triage.sorted_by Triage.key_lt (Triage.by_consequence st)).
  pose proof (sorted_by_perm Triage.key_lt (Triage.by_consequence st)) as Hperm.
  split_and!.
  - done.
  - apply sorted_before.
    + apply sorted_by_sorted; [apply key_lt_asym|apply key_le_trans].
    + by rewrite Hperm.
  - destruct p; [done|]. simpl. unfold Triage.summary_writes.
    destruct (Triage.by_consequence st) as [|kv d] eqn:Hd; [done|].
    rewrite bool_decide_eq_false_2; [done|].
    intros Hnil. rewrite Hnil in Hperm. by apply Permutation_nil_cons in Hperm.
Qed.

Lemma summary_order_witness :
  exists l,
    l ≡ₚ Triage.by_consequence
           (Triage.final (Triage.triage Sample.with_summary Sample.small_vcf))
    /\ StronglySorted Spec.before l
    /\ Triage.summary (Triage.triage Sample.with_summary Sample.small_vcf)
       = Some (Py.join ""
                 (("Kept variants: "
                   +:+ Py.str_int
                         (Triage.kept
                            (Triage.final
                               (Triage.triage Sample.with_summary Sample.small_vcf)))
                   +:+ nl)
                  :: (if bool_decide (l = []) then []
                      else ("By consequence:" +:+ nl) :: map Triage.consequence_line l))).
Proof.
  assert (Triage.raised (Triage.triage Sample.with_summary Sample.small_vcf) = None)
    as Hr by (by vm_compute).
  assert ("summary.txt" <> "") as Hp by done.
  exact (summary_order Sample.with_summary Sample.small_vcf "summary.txt" eq_refl Hp Hr).
Defined.

Example small_vcf_summary :
  Triage.summary (Triage.triage Sample.with_summary Sample.small_vcf)
  = Some ("Kept variants: 5" +:+ nl +:+ "By consequence:" +:+ nl
          +:+ "  missense_variant: 2" +:+ nl +:+ "  stop_gained: 2" +:+ nl
          +:+ "  frameshift_variant: 1" +:+ nl).
Proof. by vm_compute. Qed.

(** ** File names *)

Section Sanitize.

Lemma replace_bad_length (s : string) :
  String.length (Igv.replace_bad s) = String.length s.
Proof. induction s as [|c s IH]; simpl; [done|]. by rewrite IH. Qed.

Lemma replace_bad_safe (s : string) : Spec.safe (Igv.replace_bad s) = true.
Proof.
  unfold Spec.safe. induction s as [|c s IH]; simpl; [done|].
  rewrite IH, andb_true_r.
  destruct (bool_decide_reflect (Py.code c ∈ Igv.bad)) as [Hc|Hc]; [by vm_compute|].
  by rewrite bool_decide_eq_false_2.
Qed.

Lemma replace_bad_id (s : string) : Spec.safe s = true -> Igv.replace_bad s = s.
Proof.
  unfold Spec.safe. induction s as [|c s IH]; simpl; [done|].
  intros [Hc Hs]%andb_true_iff. rewrite (IH Hs).
  apply negb_true_iff in Hc. by rewrite Hc.
Qed.

Lemma take_str_length (n : nat) (s : string) :
  String.length (Py.take_str n s) = Nat.min n (String.length s).
Proof.
  revert s. induction n as [|n IH]; intros [|c s]; simpl; try done. by rewrite IH.
Qed.

Lemma take_str_all (n : nat) (s : string) :
  (String.length s <= n)%nat -> Py.take_str n s = s.
Proof.
  revert s. induction n as [|n IH]; intros [|c s]; simpl; try done; try lia.
  intros H. rewrite IH; [done|lia].
Qed.

Lemma take_str_safe (n : nat) (s : string) :
  Spec.safe s = true -> Spec.safe (Py.take_str n s) = true.
Proof.
  unfold Spec.safe. revert s. induction n as [|n IH]; intros [|c s]; simpl; try done.
  intros [Hc Hs]%andb_true_iff. by rewrite Hc, IH.
Qed.

Lemma take_str_get (n : nat) (s : string) (i : nat) :
  String.get i (Py.take_str n s) = if (i <? n)%nat then String.get i s else None.
Proof.
  revert s i. induction n as [|n IH]; intros [|c s] [|i]; simpl; try done.
  by destruct (S i <? S n)%nat.
Qed.

Lemma replace_bad_get (s : string) (i : nat) :
  String.get i (Igv.replace_bad s)
  = (fun ch => if bool_decide (Py.code ch ∈ Igv.bad) then "_"%char else ch)
      <$> String.get i s.
Proof. revert i. induction s as [|c s IH]; intros [|i]; simpl; try done. Qed.

Lemma string_get_beyond (s : string) (i : nat) :
  (String.length s <= i)%nat -> String.get i s = None.
Proof.
  revert i. induction s as [|c s IH]; intros [|i] H; simpl in *; try done; try lia.
  apply IH. lia.
Qed.

Lemma sanitize_filename_sound (s : string) :
  String.length (Igv.sanitize_filename s) = Nat.min 80 (String.length s)
  /\ Spec.safe (Igv.sanitize_filename s) = true.
Proof.
  unfold Igv.sanitize_filename.
  destruct (Nat.ltb_spec 80 (String.length (Igv.replace_bad s))) as [H|H].
  - rewrite take_str_length, replace_bad_length. split; [done|].
    apply take_str_safe, replace_bad_safe.
  - rewrite replace_bad_length in *. split; [lia|apply replace_bad_safe].
Qed.

End Sanitize.

(** X12. [sanitize_filename] keeps at most the first 80 characters of a
    text; its result holds none of the characters it replaces; each
    character of the result is the one of the text at the same place, or an
    underscore in place of a replaced one; sanitizing twice is sanitizing
    once. *)
Theorem sanitize_filename_safe (s : string) :
  String.length (Igv.sanitize_filename s) = Nat.min 80 (String.length s)
  /\ Spec.safe (Igv.sanitize_filename s) = true
  /\ (forall i : nat,
        String.get i (Igv.sanitize_filename s)
        = if (i <? 80)%nat
          then (fun ch => if bool_decide (Py.code ch ∈ Igv.bad) then "_"%char else ch)
                 <$> String.get i s
          else None)
  /\ Igv.sanitize_filename (Igv.sanitize_filename s) = Igv.sanitize_filename s.
Proof.
  destruct (sanitize_filename_sound s) as [Hlen Hsafe]. split_and!; try done.
  - intros i. unfold Igv.sanitize_filename.
    destruct (Nat.ltb_spec 80 (String.length (Igv.replace_bad s))) as [H|H].
    + by rewrite take_str_get, replace_bad_get.
    + rewrite replace_bad_get. destruct (Nat.ltb_spec i 80) as [?|Hi]; [done|].
      rewrite replace_bad_length in H.
      rewrite string_get_beyond; [done|lia].
  - unfold Igv.sanitize_filename at 1.
    rewrite (replace_bad_id _ Hsafe).
    destruct (Nat.ltb_spec 80 (String.length (Igv.sanitize_filename s))); [lia|done].
Qed.

(** ** The script of the generator *)

Section Script.

Variable o : Igv.options.

Lemma snapshot_line_name (r : gmap string string) (chrom : string) (pos : Z) :
  exists l, Igv.snapshot_line o r chrom pos = Ok l /\ Spec.snapshot_command l.
Proof.
  unfold Igv.snapshot_line.
  set (gene := Py.strip (Igv.get_or r ["gene"; "GENE"])).
  set (csq := Py.strip (Igv.get_or r ["consequence"; "Consequences"; "CONSEQUENCE"])).
  destruct (Py.truthy csq); [rewrite split_first|];
    unfold mbind, result_bind; (eexists; split; [reflexivity|]);
    eexists; (split; [reflexivity|]);
    match goal with
    | |- context [Igv.sanitize_filename ?b] =>
        destruct (sanitize_filename_sound b) as [Hl Hs]
    end; (split; [lia|done]).
Qed.

(** A row that is passed over, a row that gives its commands, a row that
    makes the generator raise. *)
Lemma row_lines_cases (r : gmap string string) :
  if Spec.usable r then
    match Py.int (Spec.pos_of r) with
    | Ok P =>
        exists snap,
          Igv.row_lines o r
          = Ok (Some ((if Spec.loads o r then ["load " +:+ Spec.row_bam o r] else [])
                      ++ [Spec.goto_of o r] ++ snap))
          /\ Forall Spec.snapshot_command snap
          /\ length snap = if Igv.snapshot_dir o is Some _ then 1%nat else 0%nat
    | Raise e => Igv.row_lines o r = Raise e
    end
  else Igv.row_lines o r = Ok None.
Proof.
  unfold Spec.usable, Spec.loads, Spec.goto_of, Spec.position, Spec.usable.
  unfold Igv.row_lines. fold (Spec.chrom_of r) (Spec.pos_of r).
  destruct (Py.truthy (Spec.chrom_of r)); simpl; [|done].
  destruct (Py.isdigit (Spec.pos_of r)); simpl; [|done].
  destruct (Py.int (Spec.pos_of r)) as [P|e]; simpl; [|done].
  destruct (snapshot_line_name r (Spec.chrom_of r) P) as (l & Hl & Hn).
  exists (if Igv.snapshot_dir o is Some _ then [l] else []).
  fold (Spec.row_bam o r).
  split_and!.
  - unfold Spec.row_bam. simpl.
    destruct (Igv.snapshot_dir o); [rewrite Hl|]; simpl;
      (destruct (Igv.given (Igv.bam_col o)); simpl; [|done]);
      by destruct (Py.truthy _).
  - destruct (Igv.snapshot_dir o); by repeat constructor.
  - by destruct (Igv.snapshot_dir o).
Qed.

Lemma snapshot_command_kind (l : string) :
  Spec.snapshot_command l ->
  Spec.is_snapshot l = true /\ Igv.is_goto l = false /\ Igv.is_load l = false.
Proof. by intros (name & -> & _). Qed.

Lemma filter_snapshot_commands (snap : list string) :
  Forall Spec.snapshot_command snap ->
  filter Spec.is_snapshot snap = snap
  /\ filter Igv.is_goto snap = [] /\ filter Igv.is_load snap = [].
Proof.
  induction 1 as [|l snap Hl _ (IH1 & IH2 & IH3)]; [done|].
  apply snapshot_command_kind in Hl as (H1 & H2 & H3).
  by rewrite !filter_cons, H1, H2, H3, IH1, IH2, IH3.
Qed.

Lemma filter_cons_true {A : Type} (P : A -> bool) (x : A) (l : list A) :
  P x = true -> filter P (x :: l) = x :: filter P l.
Proof.
  intros H. rewrite filter_cons. destruct (decide _) as [?|Hn]; [done|].
  destruct Hn. by apply Is_true_true.
Qed.

Lemma filter_cons_false {A : Type} (P : A -> bool) (x : A) (l : list A) :
  P x = false -> filter P (x :: l) = filter P l.
Proof.
  intros H. rewrite filter_cons. destruct (decide _) as [Hp|?]; [|done].
  apply Is_true_true in Hp. congruence.
Qed.

(** The commands of a row, by kind. *)
Lemma lines_of_kinds (r : gmap string string) :
  is_Some (match Igv.row_lines o r with Ok v => Some v | Raise _ => None end) ->
  filter Igv.is_goto (Spec.lines_of o r)
  = (if Spec.usable r then [Spec.goto_of o r] else [])
  /\ filter Igv.is_load (Spec.lines_of o r)
     = (if Spec.loads o r then ["load " +:+ Spec.row_bam o r] else [])
  /\ Forall Spec.snapshot_command (filter Spec.is_snapshot (Spec.lines_of o r))
  /\ length (filter Spec.is_snapshot (Spec.lines_of o r))
     = (if Spec.usable r then if Igv.snapshot_dir o is Some _ then 1%nat else 0%nat
        else 0%nat).
Proof.
  pose proof (row_lines_cases r) as H. unfold Spec.lines_of. intros Hok.
  unfold Spec.loads in *.
  destruct (Spec.usable r); cbn [andb] in *.
  - destruct (Py.int (Spec.pos_of r)) as [P|e].
    + destruct H as (snap & -> & Hsnap & Hlen).
      destruct (filter_snapshot_commands snap Hsnap) as (H1 & H2 & H3).
      rewrite !filter_app, H1, H2, H3.
      rewrite (filter_cons_false Igv.is_load (Spec.goto_of o r)) by done.
      rewrite (filter_cons_false Spec.is_snapshot (Spec.goto_of o r)) by done.
      rewrite (filter_cons_true Igv.is_goto (Spec.goto_of o r)) by done.
      destruct (Igv.given (Igv.bam_col o) && Py.truthy (Spec.row_bam o r)).
      * rewrite (filter_cons_false Igv.is_goto ("load " +:+ _)) by done.
        rewrite (filter_cons_false Spec.is_snapshot ("load " +:+ _)) by done.
        rewrite (filter_cons_true Igv.is_load) by done.
        rewrite !filter_nil. by simpl.
      * rewrite !filter_nil. by simpl.
    + rewrite H in Hok. by destruct Hok.
  - by rewrite H.
Qed.

Lemma loop_lines (rows : list (gmap string string)) (l : list string) (c : Z) :
  Igv.loop o rows [] 0 = Ok (l, c) ->
  l = concat (map (Spec.lines_of o) rows)
  /\ c = Z.of_nat (length (filter Spec.usable rows))
  /\ Forall (fun r => is_Some (match Igv.row_lines o r with
                                | Ok v => Some v
                                | Raise _ => None
                                end)) rows.
Proof.
  revert l c. induction rows as [|r rows IH]; intros l c.
  - by intros [= <- <-].
  - rewrite loop_cons. unfold mbind, result_bind.
    pose proof (row_lines_cases r) as Hr. unfold Spec.lines_of at 1.
    destruct (Igv.row_lines o r) as [ls|e] eqn:Hrow; [|done].
    destruct (Igv.loop o rows [] 0) as [[l' c']|e] eqn:Hloop; [|done].
    destruct (IH l' c' eq_refl) as (-> & -> & Hall).
    intros [= <- <-].
    split_and!; [|..|constructor; [by rewrite Hrow|done]].
    + simpl. rewrite Hrow. by destruct ls.
    + destruct (Spec.usable r) eqn:Hu.
      * destruct (Py.int (Spec.pos_of r)); [|done].
        destruct Hr as (snap & [= ->] & _).
        rewrite filter_cons_true by done. simpl. lia.
      * injection Hr as ->. rewrite filter_cons_false by done. simpl. lia.
Qed.

Lemma loop_returns (rows : list (gmap string string)) :
  Forall (fun r => is_Some (match Igv.row_lines o r with
                            | Ok v => Some v
                            | Raise _ => None
                            end)) rows ->
  exists l c, Igv.loop o rows [] 0 = Ok (l, c).
Proof.
  induction 1 as [|r rs Hr _ (l & c & IH)]; [by eexists _, _|].
  rewrite loop_cons, IH. unfold mbind, result_bind.
  destruct (Igv.row_lines o r); [by eexists _, _|by destruct Hr].
Qed.

Lemma loop_raises (rows : list (gmap string string)) (r : gmap string string)
  (before after : list (gmap string string)) (e : exn) :
  Forall (fun r => is_Some (match Igv.row_lines o r with
                            | Ok v => Some v
                            | Raise _ => None
                            end)) before ->
  Igv.row_lines o r = Raise e ->
  Igv.loop o (before ++ r :: after) [] 0 = Raise e.
Proof.
  intros Hb Hr. induction Hb as [|r' rs Hr' _ IH]; cbn [app].
  - simpl. by rewrite Hr.
  - rewrite loop_cons, IH. unfold mbind, result_bind.
    destruct (Igv.row_lines o r'); [done|by destruct Hr'].
Qed.

Lemma filter_concat_map {A B : Type} (P : B -> bool) (f : A -> list B) (l : list A) :
  filter P (concat (map f l)) = concat (map (fun x => filter P (f x)) l).
Proof. induction l as [|x l IH]; simpl; [done|]. by rewrite filter_app, IH. Qed.

Lemma concat_map_if {A B : Type} (p : A -> bool) (g : A -> B) (l : list A) :
  concat (map (fun x => if p x then [g x] else []) l) = map g (filter p l).
Proof.
  induction l as [|x l IH]; simpl; [done|]. rewrite IH.
  destruct (p x) eqn:Hp; [by rewrite filter_cons_true|by rewrite filter_cons_false].
Qed.

Lemma concat_map_ext {A B : Type} (f g : A -> list B) (l : list A) :
  Forall (fun x => f x = g x) l -> concat (map f l) = concat (map g l).
Proof. induction 1 as [|x l Hx _ IH]; simpl; [done|]. by rewrite Hx, IH. Qed.

(** The script of a call that returns. *)
Lemma make_igv_batch_script (records : list (list string)) (b : Igv.batch) :
  Igv.make_igv_batch o records = Ok b ->
  let rows := Igv.dict_reader records in
  Igv.out_lines b
  = (Igv.header_lines o
     ++ (if Igv.given (Igv.bam o) && bool_decide (rows <> [])
         then ["load " +:+ default "" (Igv.bam o)] else [])
     ++ (if Igv.given (Igv.snapshot_dir o) && bool_decide (rows <> [])
         then ["snapshotDirectory " +:+ default "" (Igv.snapshot_dir o)] else []))
    ++ concat (map (Spec.lines_of o) rows)
  /\ Igv.count b = Z.of_nat (length (filter Spec.usable rows))
  /\ Forall (fun r => is_Some (match Igv.row_lines o r with
                                | Ok v => Some v
                                | Raise _ => None
                                end)) rows.
Proof.
  intros Hb rows. subst rows.
  destruct (decide (Igv.dict_reader records = [])) as [Hnil|Hne].
  - rewrite (make_igv_batch_empty o records Hnil) in Hb. injection Hb as <-.
    rewrite Hnil. simpl. by rewrite !andb_false_r.
  - rewrite (make_igv_batch_rows o records Hne) in Hb.
    unfold mbind, result_bind in Hb.
    destruct (Igv.loop o (Igv.dict_reader records) [] 0) as [[l c]|e] eqn:Hloop; [|done].
    injection Hb as <-. simpl.
    apply loop_lines in Hloop as (-> & -> & Hall).
    rewrite bool_decide_eq_true_2 by done. by rewrite !andb_true_r.
Qed.

End Script.

(** ** Positions the generator cannot read *)

Section Superscripts.







End Superscripts.

Section Kinds.

Variable o : Igv.options.

Lemma prefix_kinds (b1 b2 : bool) (x y : string) :
  let pre := Igv.header_lines o ++ (if b1 then ["load " +:+ x] else [])
             ++ (if b2 then ["snapshotDirectory " +:+ y] else []) in
  filter Igv.is_goto pre = [] /\ filter Spec.is_snapshot pre = []
  /\ filter Igv.is_load pre = if b1 then ["load " +:+ x] else [].
Proof.
  intros pre. subst pre. unfold Igv.header_lines. cbn [app].
  rewrite (filter_cons_false Igv.is_goto "new") by done.
  rewrite (filter_cons_false Igv.is_goto ("genome " +:+ _)) by done.
  rewrite (filter_cons_false Spec.is_snapshot "new") by done.
  rewrite (filter_cons_false Spec.is_snapshot ("genome " +:+ _)) by done.
  rewrite (filter_cons_false Igv.is_load "new") by done.
  rewrite (filter_cons_false Igv.is_load ("genome " +:+ _)) by done.
  destruct b1, b2; cbn [app];
    rewrite ?(filter_cons_false Igv.is_goto ("load " +:+ _)) by done;
    rewrite ?(filter_cons_false Spec.is_snapshot ("load " +:+ _)) by done;
    rewrite ?(filter_cons_true Igv.is_load ("load " +:+ _)) by done;
    rewrite ?(filter_cons_false Igv.is_goto ("snapshotDirectory " +:+ _)) by done;
    rewrite ?(filter_cons_false Spec.is_snapshot ("snapshotDirectory " +:+ _)) by done;
    rewrite ?(filter_cons_false Igv.is_load ("snapshotDirectory " +:+ _)) by done;
    by rewrite !filter_nil.
Qed.

Lemma length_concat_map {A B : Type} (f : A -> list B) (p : A -> bool) (k : nat)
  (l : list A) :
  Forall (fun x => length (f x) = if p x then k else 0%nat) l ->
  length (concat (map f l)) = (k * length (filter p l))%nat.
Proof.
  induction 1 as [|x l Hx _ IH]; simpl; [lia|].
  rewrite length_app, IH, Hx.
  destruct (p x) eqn:Hp;
    [rewrite filter_cons_true by done|rewrite filter_cons_false by done]; simpl; lia.
Qed.

End Kinds.

Lemma script_goto_lines (o : Igv.options) (records : list (list string)) (b : Igv.batch) :
  Igv.make_igv_batch o records = Ok b ->
  filter Igv.is_goto (Igv.out_lines b)
  = map (Spec.goto_of o) (filter Spec.usable (Igv.dict_reader records)).
Proof.
  intros (Hout & Hcount & Hall)%make_igv_batch_script.
  rewrite Hout, filter_app.
  rewrite (proj1 (prefix_kinds o _ _ _ _)). cbn [app].
  rewrite filter_concat_map, <- concat_map_if.
  apply concat_map_ext. eapply Forall_impl; [exact Hall|].
  intros r Hr. by apply lines_of_kinds.
Qed.

(** X13. In the script of a call that returns, the navigation commands are
    those of the usable rows (a chromosome that is not empty, a position
    made of digits), one for each row and in the order of the table:
    [goto chrom:max(1, pos - flank)-(pos + flank)]. The returned count is
    the number of these commands. *)
Theorem script_gotos (o : Igv.options) (records : list (list string)) (b : Igv.batch) :
  Igv.make_igv_batch o records = Ok b ->
  filter Igv.is_goto (Igv.out_lines b)
  = map (Spec.goto_of o) (filter Spec.usable (Igv.dict_reader records))
  /\ Igv.count b = Z.of_nat (length (filter Igv.is_goto (Igv.out_lines b))).
Proof.
  intros Hb. pose proof (script_goto_lines o records b Hb) as Hg.
  apply make_igv_batch_script in Hb as (_ & Hcount & _).
  split; [done|]. by rewrite Hg, length_map.
Qed.

Lemma script_gotos_witness :
  exists b, Igv.make_igv_batch Sample.per_row Sample.loci_table = Ok b
            /\ (filter Igv.is_goto (Igv.out_lines b)
                = map (Spec.goto_of Sample.per_row)
                    (filter Spec.usable (Igv.dict_reader Sample.loci_table))
                /\ Igv.count b = Z.of_nat (length (filter Igv.is_goto (Igv.out_lines b)))).
Proof.
  pose (r := Igv.make_igv_batch Sample.per_row Sample.loci_table). vm_compute in r.
  match eval unfold r in r with
  | Ok ?b =>
      exists b;
      assert (Igv.make_igv_batch Sample.per_row Sample.loci_table = Ok b) as H
        by (by vm_compute);
      split; [exact H|exact (script_gotos Sample.per_row Sample.loci_table b H)]
  end.
Defined.

Example per_row_script :
  Igv.out_lines <$> Igv.make_igv_batch Sample.per_row Sample.loci_table
  = Ok ["new"; "genome GRCh38"; "snapshotDirectory shots"; "load /x/a.bam";
        "goto 1:950-1050"; "snapshot run_1_1000_GENE1_missense_variant.png";
        "goto 2:1-55"; "snapshot run_2_5.png";
        "goto 3:20-120"; "snapshot run_3_70_G_3_a_b_c.png"].
Proof. by vm_compute. Qed.

(** X14. In the script of a call that returns, the load commands are: the
    shared alignment file, once, when [bam] is given and the table has a
    row; then, when [bam_col] is given, one for each usable row whose column
    holds a path, in the order of the table. Without [bam_col] the shared
    one is the only load command. *)
Theorem load_commands (o : Igv.options) (records : list (list string)) (b : Igv.batch) :
  Igv.make_igv_batch o records = Ok b ->
  let rows := Igv.dict_reader records in
  let shared :=
    if Igv.given (Igv.bam o) && bool_decide (rows <> [])
    then ["load " +:+ default "" (Igv.bam o)] else [] in
  filter Igv.is_load (Igv.out_lines b)
  = shared ++ map (fun r => "load " +:+ Spec.row_bam o r) (filter (Spec.loads o) rows)
  /\ (Igv.given (Igv.bam_col o) = false ->
      filter Igv.is_load (Igv.out_lines b) = shared).
Proof.
  intros (Hout & Hcount & Hall)%make_igv_batch_script rows shared.
  assert (filter Igv.is_load (Igv.out_lines b)
          = shared ++ map (fun r => "load " +:+ Spec.row_bam o r)
                        (filter (Spec.loads o) rows)) as Hl.
  { rewrite Hout, filter_app.
    rewrite (proj2 (proj2 (prefix_kinds o _ _ _ _))). fold rows shared. f_equal.
    rewrite filter_concat_map, <- concat_map_if.
    apply concat_map_ext. eapply Forall_impl; [exact Hall|].
    intros r Hr. by apply lines_of_kinds. }
  split; [done|]. intros Hcol. rewrite Hl.
  assert (filter (Spec.loads o) rows = []) as ->; [|by rewrite app_nil_r].
  clear -Hcol. induction rows as [|r rows' IH]; [done|].
  rewrite filter_cons_false; [done|].
  unfold Spec.loads. by rewrite Hcol, andb_false_r.
Qed.

Lemma load_commands_witness :
  exists b, Igv.make_igv_batch Sample.per_row Sample.loci_table = Ok b
            /\ (filter Igv.is_load (Igv.out_lines b)
                = (if Igv.given (Igv.bam Sample.per_row)
                      && bool_decide (Igv.dict_reader Sample.loci_table <> [])
                   then ["load " +:+ default "" (Igv.bam Sample.per_row)] else [])
                  ++ map (fun r => "load " +:+ Spec.row_bam Sample.per_row r)
                       (filter (Spec.loads Sample.per_row)
                          (Igv.dict_reader Sample.loci_table))
                /\ (Igv.given (Igv.bam_col Sample.per_row) = false ->
                    filter Igv.is_load (Igv.out_lines b)
                    = if Igv.given (Igv.bam Sample.per_row)
                         && bool_decide (Igv.dict_reader Sample.loci_table <> [])
                      then ["load " +:+ default "" (Igv.bam Sample.per_row)] else [])).
Proof.
  pose (r := Igv.make_igv_batch Sample.per_row Sample.loci_table). vm_compute in r.
  match eval unfold r in r with
  | Ok ?b =>
      exists b;
      assert (Igv.make_igv_batch Sample.per_row Sample.loci_table = Ok b) as H
        by (by vm_compute);
      split; [exact H|exact (load_commands Sample.per_row Sample.loci_table b H)]
  end.
Defined.

(** X15. In the script of a call that returns, every snapshot command
    names a file [name.png] whose name has at most 80 characters and none of
    the replaced ones. There is one for each locus when [snapshot_dir] is
    not [None], the empty text included, and none otherwise. *)
Theorem snapshot_commands (o : Igv.options) (records : list (list string))
  (b : Igv.batch) :
  Igv.make_igv_batch o records = Ok b ->
  let snaps := filter Spec.is_snapshot (Igv.out_lines b) in
  Forall Spec.snapshot_command snaps
  /\ Z.of_nat (length snaps) = if Igv.snapshot_dir o is Some _ then Igv.count b else 0.
Proof.
  intros (Hout & Hcount & Hall)%make_igv_batch_script snaps. subst snaps.
  rewrite Hout, filter_app.
  rewrite (proj1 (proj2 (prefix_kinds o _ _ _ _))). cbn [app].
  rewrite filter_concat_map. split.
  - apply Forall_concat, Forall_map. eapply Forall_impl; [exact Hall|].
    intros r Hr. by apply lines_of_kinds.
  - rewrite (length_concat_map _ Spec.usable
               (if Igv.snapshot_dir o is Some _ then 1%nat else 0%nat)).
    + rewrite Hcount. destruct (Igv.snapshot_dir o); lia.
    + eapply Forall_impl; [exact Hall|]. intros r Hr.
      destruct (lines_of_kinds o r Hr) as (_ & _ & _ & ->).
      by destruct (Spec.usable r).
Qed.

Lemma snapshot_commands_witness :
  exists b, Igv.make_igv_batch Sample.no_directory Sample.loci_table = Ok b
            /\ (Forall Spec.snapshot_command (filter Spec.is_snapshot (Igv.out_lines b))
                /\ Z.of_nat (length (filter Spec.is_snapshot (Igv.out_lines b)))
                   = if Igv.snapshot_dir Sample.no_directory is Some _
                     then Igv.count b else 0).
Proof.
  pose (r := Igv.make_igv_batch Sample.no_directory Sample.loci_table). vm_compute in r.
  match eval unfold r in r with
  | Ok ?b =>
      exists b;
      assert (Igv.make_igv_batch Sample.no_directory Sample.loci_table = Ok b) as H
        by (by vm_compute);
      split; [exact H|exact (snapshot_commands Sample.no_directory Sample.loci_table b H)]
  end.
Defined.

Example snapshots_without_directory :
  Igv.out_lines <$> Igv.make_igv_batch Sample.no_directory Sample.loci_table
  = Ok ["new"; "genome GRCh38"; "load /x/s.bam";
        "goto 1:950-1050"; "snapshot 1_1000_GENE1_missense_variant.png";
        "goto 2:1-55"; "snapshot 2_5.png";
        "goto 3:20-120"; "snapshot 3_70_G_3_a_b_c.png"].
Proof. by vm_compute. Qed.



Example short_row_passed_over :
  Igv.out_lines <$> Igv.make_igv_batch Sample.single_bam Sample.short_row_table
  = Ok ["new"; "genome GRCh38"; "load /x/sample.bam"].
Proof. by vm_compute. Qed.

Example superscript_position_raises :
  Igv.make_igv_batch Sample.single_bam Sample.superscript_table = Raise ValueError.
Proof. by vm_compute. Qed.

(** ** Integers as text *)

Section StrInt.








End StrInt.

(** ** From the table to the script *)

Section ReadBack.

Variable o : Igv.options.









End ReadBack.

(** ** The rows of a run name their record *)

Section RowsOfRecords.

Variable cfg : Triage.FilterConfig.






End RowsOfRecords.


Example small_vcf_script :
  Igv.out_lines
  <$> Igv.make_igv_batch Sample.single_bam
        (Triage.table (Triage.triage Triage.default_config Sample.small_vcf))
  = Ok ["new"; "genome GRCh38"; "load /x/sample.bam"; "goto 1:950-1050";
        "goto 1:950-1050"; "goto 3:1-57"; "goto 4:1-59"].
Proof. by vm_compute. Qed.

(** ** The filter status *)

(** X18. A record is dropped by the filter-status rule exactly when
    non-PASS records are not included and the seventh token of its line is
    neither [PASS] nor the missing-value dot: the reader turns the dot into
    [PASS], and the comparison is exact, so any other spelling is dropped. *)
Theorem nonpass_rule (cfg : Triage.FilterConfig) (line : string)
  (rec : Triage.VariantRecord) :
  Triage.read_line line = Ok (Some rec) ->
  exists flt,
    Triage.tokens line !! 6%nat = Some flt
    /\ (Triage.keep_record cfg rec = Ok (Triage.Dropped Triage.NonPass)
        <-> Triage.include_nonpass cfg = false /\ flt <> "PASS" /\ flt <> ".").
Proof.
  intros (chrom & pos & id & ref & alt & qual & flt & info & Ht & _ & _ & _ & _ & _ & _
          & Hf & _)%read_line_yield.
  exists flt. split.
  - rewrite <- (lookup_take_lt (Triage.tokens line) 8 6) by lia. by rewrite Ht.
  - rewrite keep_record_nonpass. unfold Triage.drop_nonpass.
    rewrite andb_true_iff, !negb_true_iff, bool_decide_eq_false, Hf.
    case_bool_decide as Hd.
    + subst flt. split; [by intros [_ ?]|by intros (_ & _ & ?)].
    + split; [by intros [? ?]|by intros (? & ? & _)].
Qed.

Lemma nonpass_rule_witness :
  exists rec,
    Triage.read_line Sample.good_line = Ok (Some rec)
    /\ exists flt,
         Triage.tokens Sample.good_line !! 6%nat = Some flt
         /\ (Triage.keep_record Triage.default_config rec
             = Ok (Triage.Dropped Triage.NonPass)
             <-> Triage.include_nonpass Triage.default_config = false
                 /\ flt <> "PASS" /\ flt <> ".").
Proof.
  pose (r := Triage.read_line Sample.good_line). vm_compute in r.
  match eval unfold r in r with
  | Ok (Some ?rec) =>
      exists rec;
      assert (Triage.read_line Sample.good_line = Ok (Some rec)) as H by (by vm_compute);
      split; [exact H|exact (nonpass_rule Triage.default_config Sample.good_line rec H)]
  end.
Defined.

(** ** The text of the script *)

Section Text.

Lemma append_assoc (a b c : string) : (a +:+ b) +:+ c = a +:+ (b +:+ c).
Proof.
  induction a as [|x a IH]; [done|].
  change (String x ((a +:+ b) +:+ c) = String x (a +:+ (b +:+ c))). by f_equal.
Qed.

Lemma split_write_text (sep : ascii) (l : list string) :
  l <> [] -> Forall (fun x => Spec.lacks sep x = true) l ->
  Py.split sep (Py.join (String sep "") l +:+ String sep "") = l ++ [""].
Proof.
  induction l as [|x l IH]; [done|]. intros _ Hl.
  apply Forall_cons in Hl as [Hx Hl]. destruct l as [|y l].
  - simpl. by rewrite split_app_sep.
  - change (Py.join (String sep "") (x :: y :: l))
      with (x +:+ String sep (Py.join (String sep "") (y :: l))).
    rewrite append_assoc.
    change (String sep (Py.join (String sep "") (y :: l)) +:+ String sep "")
      with (String sep (Py.join (String sep "") (y :: l) +:+ String sep "")).
    by rewrite split_app_sep, IH.
Qed.

Lemma make_igv_batch_written (o : Igv.options) (records : list (list string))
  (b : Igv.batch) :
  Igv.make_igv_batch o records = Ok b ->
  Igv.written b = Igv.write_text (Igv.out_lines b)
  /\ take 2 (Igv.out_lines b) = Igv.header_lines o.
Proof.
  unfold Igv.make_igv_batch, mbind, result_bind.
  destruct (Igv.dict_reader records) as [|r rows]; [by intros [= <-]|].
  destruct (Igv.loop _ _ _ _) as [[l c]|e] eqn:Hloop; [|done]. intros [= <-]. simpl.
  split; [done|]. rewrite loop_acc in Hloop. unfold mbind, result_bind in Hloop.
  destruct (Igv.loop _ _ [] 0) as [[l' c']|]; [|done]. injection Hloop as <- _.
  by destruct (Igv.given (Igv.bam o)), (Igv.given (Igv.snapshot_dir o)).
Qed.

End Text.

(** X19. The text written for a script whose commands hold no newline
    splits at the newlines into exactly these commands, followed by the
    empty text after the final newline; the first two commands are [new] and
    the genome selection. *)
Theorem script_text (o : Igv.options) (records : list (list string)) (b : Igv.batch) :
  Igv.make_igv_batch o records = Ok b ->
  Forall (fun l => Spec.lacks (ascii_of_N 10) l = true) (Igv.out_lines b) ->
  Py.split (ascii_of_N 10) (Igv.written b) = Igv.out_lines b ++ [""]
  /\ take 2 (Igv.out_lines b) = ["new"; "genome " +:+ Igv.genome o].
Proof.
  intros [Hw Hh]%make_igv_batch_written Hl. split; [|done].
  rewrite Hw. unfold Igv.write_text. apply (split_write_text (ascii_of_N 10)); [|done].
  intros Hnil. by rewrite Hnil in Hh.
Qed.

Lemma script_text_witness :
  exists b, Igv.make_igv_batch Sample.single_bam Sample.one_locus = Ok b
            /\ Py.split (ascii_of_N 10) (Igv.written b) = Igv.out_lines b ++ [""]
            /\ take 2 (Igv.out_lines b) = ["new"; "genome " +:+ Igv.genome Sample.single_bam].
Proof.
  pose (r := Igv.make_igv_batch Sample.single_bam Sample.one_locus). vm_compute in r.
  match eval unfold r in r with
  | Ok ?b =>
      exists b;
      assert (Igv.make_igv_batch Sample.single_bam Sample.one_locus = Ok b) as H
        by (by vm_compute);
      assert (Forall (fun l => Spec.lacks (ascii_of_N 10) l = true) (Igv.out_lines b))
        as Hl by (by repeat constructor);
      split; [exact H|exact (script_text Sample.single_bam Sample.one_locus b H Hl)]
  end.
Defined.
